(** * wifi-survey-heatmap: a shallow embedding of [heatmap.py]

    The development follows [HeatMapGenerator] of
    [wifi_survey_heatmap/heatmap.py]: the constructor, [generate],
    [_plot_channels] and [_plot].

    Modelling conventions.
    - A JSON number and a numpy/Python float is a rational ([Q]).  The
      divisions whose quotient [generate] truncates with [int] are rounded
      to binary64 ([fdiv]), since the rounding decides the integer; the
      other arithmetic (sums, means, axis coordinates, the colour norm) is
      exact, its rounding is not modelled.  Integers ([len], pixel counts,
      [int(...)]) are [Z].
    - A Python exception is a constructor of [exn]; code that may raise
      returns [result].  Code that also prints or draws returns [Py]: the
      trace of what was emitted so far together with the outcome.  Calls
      to [logger] are left out.  Reading the image and the JSON file may
      raise; [__init__] takes what the two reads returned, and [main]
      performs the reads in the order of the constructor.
    - [defaultdict(list)] is an association list in insertion order.
    - The third-party calls ([np.linspace], [np.meshgrid], [reshape],
      [matplotlib.colors.Normalize], [ScalarMappable.to_rgba]) are modelled
      after the behaviour of those libraries; [scipy.interpolate.Rbf] is a
      parameter of the development. *)

From Stdlib Require Import ZArith QArith List String Bool Lia Lqa SetoidList.
Import ListNotations.
Local Open Scope string_scope.
Local Open Scope list_scope.
Local Open Scope Q_scope.

(* ===================================================================== *)
(** ** Python runtime pieces *)
(* ===================================================================== *)

Module Py.

Inductive exn : Type :=
| ValueError
| IndexError
| ZeroDivisionError
| NotImplementedError
| LinAlgError
| OSError.

Inductive result (A : Type) : Type :=
| Ok (a : A)
| Raise (e : exn).
Arguments Ok {A} a.
Arguments Raise {A} e.

Definition rbind {A B} (c : result A) (k : A -> result B) : result B :=
  match c with
  | Ok a => k a
  | Raise e => Raise e
  end.

(** [for v in l: acc = f(acc, v)], stopping at the first exception. *)
Fixpoint rfold {A B} (f : A -> B -> result A) (l : list B) (acc : A)
  : result A :=
  match l with
  | [] => Ok acc
  | v :: l' => rbind (f acc v) (rfold f l')
  end.

(** [[f(v) for v in l]], stopping at the first exception. *)
Fixpoint rmap {A B} (f : A -> result B) (l : list A) : result (list B) :=
  match l with
  | [] => Ok []
  | v :: l' =>
      rbind (f v) (fun b => rbind (rmap f l') (fun bs => Ok (b :: bs)))
  end.

Definition Qlt_bool (p q : Q) : bool := negb (Qle_bool q p).

(** One comparison of [min]: a later element replaces the running
    minimum only when it is strictly smaller. *)
Definition min_step (m w : Q) : Q := if Qlt_bool w m then w else m.

(** One comparison of [max]. *)
Definition max_step (m w : Q) : Q := if Qlt_bool m w then w else m.

(** [min(l)]: the first smallest element; [ValueError] on an empty list. *)
Definition py_min (l : list Q) : result Q :=
  match l with
  | [] => Raise ValueError
  | v :: l' => Ok (fold_left min_step l' v)
  end.

(** [max(l)]: the first largest element; [ValueError] on an empty list. *)
Definition py_max (l : list Q) : result Q :=
  match l with
  | [] => Raise ValueError
  | v :: l' => Ok (fold_left max_step l' v)
  end.

(** [sum(l)]: starts from 0 and adds from the left. *)
Definition py_sum (l : list Q) : Q := fold_left Qplus l 0.

Definition len {A} (l : list A) : Z := Z.of_nat (List.length l).

(** [n / d] (true division). *)
Definition truediv (n d : Q) : result Q :=
  if Qeq_bool d 0 then Raise ZeroDivisionError else Ok (n / d).

(** [int(q)]: truncation towards zero. *)
Definition py_int (q : Q) : Z := Z.quot (Qnum q) (Zpos (Qden q)).

(** *** Division in binary64

    Where a quotient is truncated to an integer the rounding of the
    division shows, so the divisions of the grid are rounded to the
    nearest binary64 value, ties to even.  The exponent range is not
    modelled: the result is the binary64 value for every quotient of
    magnitude between 2^-1022 and 2^1024, which covers the quotients of
    image sizes. *)

(** [num / den] rounded to the nearest integer, ties to even
    ([den > 0]). *)
Definition rne (num den : Z) : Z :=
  let q := (num / den)%Z in
  match (2 * (num mod den) ?= den)%Z with
  | Lt => q
  | Gt => (q + 1)%Z
  | Eq => if Z.even q then q else (q + 1)%Z
  end.

(** The 53-bit mantissa [m] and the exponent [e] of the binary64 value
    [m * 2^e] nearest to [n / d]. *)
Definition nearest (n d : positive) : Z * Z :=
  let e0 := (Z.log2 (Zpos n) - Z.log2 (Zpos d) - 52)%Z in
  let num0 := if (e0 <=? 0)%Z then (Zpos n * 2 ^ (- e0))%Z else Zpos n in
  let den0 := if (e0 <=? 0)%Z then Zpos d else (Zpos d * 2 ^ e0)%Z in
  if (num0 <? 2 ^ 52 * den0)%Z then (rne (2 * num0) den0, (e0 - 1)%Z)
  else (rne num0 den0, e0).

(** The rational [m * 2^e]. *)
Definition b64_value (me : Z * Z) : Q :=
  let (m, e) := me in
  if (0 <=? e)%Z then inject_Z (m * 2 ^ e)
  else Qmake m (Z.to_pos (2 ^ (- e))).

(** The binary64 value nearest to [q]. *)
Definition b64_round (q : Q) : Q :=
  match Qnum q with
  | Z0 => 0
  | Zpos n => b64_value (nearest n (Qden q))
  | Zneg n => - b64_value (nearest n (Qden q))
  end.

(** [n / d] in binary64, for operands that are binary64 values or
    integers below 2^53. *)
Definition fdiv (n d : Q) : result Q :=
  if Qeq_bool d 0 then Raise ZeroDivisionError else Ok (b64_round (n / d)).

(** [k in l] for a list of strings. *)
Definition str_in (k : string) (l : list string) : bool :=
  existsb (String.eqb k) l.

(** *** [defaultdict(list)] with string keys *)

Definition ddict : Type := list (string * list Q).

(** [a[k]] read: the list stored under [k], the empty list for a new key
    (the empty entry that the read leaves behind is not recorded). *)
Fixpoint dd_get (k : string) (a : ddict) : list Q :=
  match a with
  | [] => []
  | (k', l) :: a' => if String.eqb k k' then l else dd_get k a'
  end.

(** [a[k].append(v)]: a missing key is created at the end. *)
Fixpoint dd_append (k : string) (v : Q) (a : ddict) : ddict :=
  match a with
  | [] => [(k, [v])]
  | (k', l) :: a' =>
      if String.eqb k k' then (k', l ++ [v]) :: a'
      else (k', l) :: dd_append k v a'
  end.

Definition dd_keys (a : ddict) : list string := map fst a.

(** *** [defaultdict(list)] with float keys, and the dict of means that
    [_plot_channels] turns it into *)

Fixpoint fd_get {V} (k : Q) (a : list (Q * V)) : option V :=
  match a with
  | [] => None
  | (k', l) :: a' => if Qeq_bool k k' then Some l else fd_get k a'
  end.

Fixpoint fd_append (k : Q) (v : Q) (a : list (Q * list Q))
  : list (Q * list Q) :=
  match a with
  | [] => [(k, [v])]
  | (k', l) :: a' =>
      if Qeq_bool k k' then (k', l ++ [v]) :: a'
      else (k', l) :: fd_append k v a'
  end.

End Py.
Import Py.

Declare Scope result_scope.
Notation "x <- c ;; k" := (rbind c (fun x => k))
  (at level 61, c at next level, right associativity) : result_scope.
Delimit Scope result_scope with result.

(* ===================================================================== *)
(** ** numpy pieces *)
(* ===================================================================== *)

Module Np.

(** [np.linspace(start, stop, num)] with the default [endpoint=True]:
    [num] samples [start + i*step], [step = (stop - start) / (num - 1)];
    for [num > 1] the last sample is overwritten with [stop]; for
    [num = 1] the result is [[start]]; a negative [num] is refused. *)
Definition linspace (start stop : Q) (num : Z) : result (list Q) :=
  if (num <? 0)%Z then Raise ValueError
  else
    let div := (num - 1)%Z in
    let delta := stop - start in
    let step := if (0 <? div)%Z then delta / inject_Z div else delta in
    Ok (map (fun i : nat =>
               if ((1 <? num) && (Z.of_nat i =? num - 1))%Z then stop
               else start + inject_Z (Z.of_nat i) * step)
            (seq 0 (Z.to_nat num))).

(** [np.meshgrid(x, y)] followed by [.flatten()] on both results: the
    grid has [len(y)] rows and [len(x)] columns, and is read row by row. *)
Definition meshgrid_flat (x y : list Q) : list Q * list Q :=
  (flat_map (fun _ => x) y, flat_map (fun yj => map (fun _ => yj) x) y).

Fixpoint chunks {A} (rows cols : nat) (l : list A) : list (list A) :=
  match rows with
  | O => []
  | S r => firstn cols l :: chunks r cols (skipn cols l)
  end.

(** [z.reshape((rows, cols))] of a flat array. *)
Definition reshape (z : list Q) (rows cols : Z) : result (list (list Q)) :=
  if ((rows <? 0) || (cols <? 0))%Z then Raise ValueError
  else if (len z =? rows * cols)%Z
       then Ok (chunks (Z.to_nat rows) (Z.to_nat cols) z)
       else Raise ValueError.

(** [np.clip(v, lo, hi)]. *)
Definition clip (v lo hi : Q) : Q :=
  if Qlt_bool v lo then lo else if Qlt_bool hi v then hi else v.

End Np.

(* ===================================================================== *)
(** ** matplotlib pieces *)
(* ===================================================================== *)

Module Mpl.

(** [matplotlib.colors.Normalize(vmin, vmax, clip)] applied to a value:
    equal bounds fill the result with 0, reversed bounds are refused,
    otherwise the (clipped) value is scaled linearly. *)
Definition Normalize (vmin vmax : Q) (clip : bool) (value : Q) : result Q :=
  if Qeq_bool vmin vmax then Ok 0
  else if Qlt_bool vmax vmin then Raise ValueError
  else
    let v := if clip then Np.clip value vmin vmax else value in
    Ok ((v - vmin) / (vmax - vmin)).

(** A colour of the palette: the colormap applied to an intensity. *)
Inductive color : Type :=
| RdYlBu_r (intensity : Q).

(** What the run prints and draws, in order. *)
Inductive event : Type :=
| Print (channels : list (Q * Q))
| RcFigsize (w h : Q)
| PpTitle (title : string)
| PpAxisOff
| PpImshowField (z : list (list Q)) (left right bottom top : Z)
| PpColorbar
| PpImshowLayout
| PpPlot (x y : Q) (markerfacecolor : color)
| PpSavefig (fname : string)
| PpCloseAll.

End Mpl.
Import Mpl.

(** Effectful code: the events emitted so far and the outcome. *)
Definition Py (A : Type) : Type := (list event * result A)%type.

Definition ret {A} (a : A) : Py A := ([], Ok a).
Definition raise {A} (e : exn) : Py A := ([], Raise e).
Definition emit (ev : event) : Py unit := ([ev], Ok tt).
Definition lift {A} (c : result A) : Py A := ([], c).

Definition bind {A B} (c : Py A) (k : A -> Py B) : Py B :=
  match c with
  | (tr, Ok a) => let (tr', r) := k a in (tr ++ tr', r)
  | (tr, Raise e) => (tr, Raise e)
  end.

Declare Scope py_scope.
Notation "x <- c ;; k" := (bind c (fun x => k))
  (at level 61, c at next level, right associativity) : py_scope.
Notation "c ;; k" := (bind c (fun _ => k))
  (at level 61, right associativity) : py_scope.
Delimit Scope py_scope with py.

(** [for v in l: body(v)]. *)
Fixpoint for_each {A} (l : list A) (body : A -> Py unit) : Py unit :=
  match l with
  | [] => ret tt
  | v :: l' => bind (body v) (fun _ => for_each l' body)
  end.

(* ===================================================================== *)
(** ** The data: measurement records and the background image *)
(* ===================================================================== *)

(** One entry of [row['result']['iwscan']]. *)
Record Scan : Type := {
  ESSID : string;
  Frequency : Q;
  stats_quality : Q
}.

(** One record of the survey's JSON file. *)
Record Row : Type := {
  row_x : Q;
  row_y : Q;
  iwconfig_level : Q;
  iwconfig_quality : Q;
  tcp_sent_Mbps : Q;
  tcp_reverse_received_Mbps : Q;
  udp_Mbps : Q;
  udp_jitter_ms : Q;
  iwscan : list Scan
}.

(** What [imread] returns: rows of pixels, a pixel being its channels. *)
Definition image : Type := list (list (list Q)).

Record HeatMapGenerator : Type := {
  _image_path : string;
  _title : string;
  _ignore_ssids : list string;
  _layout : image;
  _image_width : Z;
  _image_height : Z;
  _data : list Row
}.

(** [l[idx]]. *)
Definition getitem {A} (l : list A) (idx : nat) : result A :=
  match nth_error l idx with
  | Some v => Ok v
  | None => Raise IndexError
  end.

(** [HeatMapGenerator.__init__]; [layout] is what [imread(image_path)]
    returns and [data] what the file [title.json] holds. *)
Definition __init__ (layout : image) (data : list Row)
    (image_path title : string) (ignore_ssids : list string)
  : result HeatMapGenerator :=
  (row0 <- getitem layout 0 ;;
   Ok {| _image_path := image_path;
         _title := title;
         _ignore_ssids := ignore_ssids;
         _layout := layout;
         _image_width := len row0;
         _image_height := len layout - 1;
         _data := data |})%result.

(* ===================================================================== *)
(** ** [generate]: aggregation and padding *)
(* ===================================================================== *)

(** The body of [for row in self._data]. *)
Definition collect_row (a : ddict) (row : Row) : ddict :=
  let a := dd_append "x" (row_x row) a in
  let a := dd_append "y" (row_y row) a in
  let a := dd_append "rssi" (iwconfig_level row) a in
  let a := dd_append "quality" (iwconfig_quality row) a in
  let a := dd_append "tcp_upload_Mbps" (tcp_sent_Mbps row) a in
  let a := dd_append "tcp_download_Mbps" (tcp_reverse_received_Mbps row) a in
  let a := dd_append "udp_Mbps" (udp_Mbps row) a in
  dd_append "jitter" (udp_jitter_ms row) a.

Definition collect (data : list Row) : ddict :=
  fold_left collect_row data [].

Definition corners (W H : Z) : list (Q * Q) :=
  [(0, 0); (0, inject_Z H); (inject_Z W, 0); (inject_Z W, inject_Z H)].

(** The body of [for k in a.keys()]. *)
Definition pad_key (a : ddict) (k : string) : result ddict :=
  if str_in k ["x"; "y"] then Ok a
  else (m <- py_min (dd_get k a) ;; Ok (dd_append k m a))%result.

(** The body of [for x, y in [...]]. *)
Definition pad_corner (a : ddict) (c : Q * Q) : result ddict :=
  let a := dd_append "x" (fst c) a in
  let a := dd_append "y" (snd c) a in
  rfold pad_key (dd_keys a) a.

(** Lines 149-170 of [generate]: the dict [a] handed to [_plot]. *)
Definition aggregate (self : HeatMapGenerator) : result ddict :=
  rfold pad_corner (corners (_image_width self) (_image_height self))
        (collect (_data self)).

(* ===================================================================== *)
(** ** [generate]: the grid *)
(* ===================================================================== *)

(** [num_x] and [num_y] of [generate]; the three divisions are binary64
    divisions, and [int] truncates their rounded quotients. *)
Definition grid_shape (W H : Z) : result (Z * Z) :=
  (q <- fdiv (inject_Z W) 4 ;;
   let num_x := py_int q in
   r <- fdiv (inject_Z W) (inject_Z H) ;;
   q' <- fdiv (inject_Z num_x) r ;;
   Ok (num_x, py_int q'))%result.

(** [x], [y] of [generate]. *)
Definition grid_axes (W H num_x num_y : Z) : result (list Q * list Q) :=
  (x <- Np.linspace 0 (inject_Z W) num_x ;;
   y <- Np.linspace 0 (inject_Z H) num_y ;;
   Ok (x, y))%result.

(** The metric keys and their titles, in the order [generate] plots them. *)
Definition metric_titles : list (string * string) :=
  [("rssi", "RSSI (level)");
   ("quality", "iwstats Quality");
   ("tcp_upload_Mbps", "TCP Upload Mbps");
   ("tcp_download_Mbps", "TCP Download Mbps");
   ("udp_Mbps", "UDP Upload Mbps");
   ("jitter", "UDP Jitter (ms)")].

(* ===================================================================== *)
(** ** [_plot_channels] *)
(* ===================================================================== *)

(** The body of [for scan in row['result']['iwscan']]. *)
Definition bucket_scan (ignore : list string) (channels : list (Q * list Q))
    (scan : Scan) : list (Q * list Q) :=
  if str_in (ESSID scan) ignore then channels
  else fd_append (Frequency scan / 1000000) (stats_quality scan) channels.

(** [for row in self._data] of [_plot_channels], from the buckets
    [channels]. *)
Definition bucket_rows (ignore : list string) (data : list Row)
    (channels : list (Q * list Q)) : list (Q * list Q) :=
  fold_left (fun channels row =>
               fold_left (bucket_scan ignore) (iwscan row) channels)
            data channels.

Definition bucket (ignore : list string) (data : list Row)
  : list (Q * list Q) :=
  bucket_rows ignore data [].

(** [sum(l) / len(l)]. *)
Definition mean (l : list Q) : result Q :=
  truediv (py_sum l) (inject_Z (len l)).

(** [for freq in channels.keys(): channels[freq] = sum(...) / len(...)]. *)
Definition means (channels : list (Q * list Q)) : result (list (Q * Q)) :=
  rmap (fun kv => (m <- mean (snd kv) ;; Ok (fst kv, m))%result) channels.

Definition _plot_channels (self : HeatMapGenerator) : Py unit :=
  (channels <- lift (means (bucket (_ignore_ssids self) (_data self))) ;;
   emit (Print channels) ;;
   @raise unit NotImplementedError ;;
   emit PpCloseAll)%py.

(* ===================================================================== *)
(** ** [_plot] and the rest of [generate] *)
(* ===================================================================== *)

Section Plot.

(** [Rbf(x, y, d, function='linear')]: the fit may raise; the fitted model
    maps a query coordinate to a value. *)
Variable Rbf : list Q -> list Q -> list Q -> result (Q -> Q -> Q).

(** [mapper.to_rgba(v)] for [mapper = ScalarMappable(norm, 'RdYlBu_r')]. *)
Definition to_rgba (norm : Q -> result Q) (v : Q) : result color :=
  (t <- norm v ;; Ok (RdYlBu_r t))%result.

(** The [norm] that [_plot] builds from [a[key]]. *)
Definition plot_norm (values : list Q) : result (Q -> result Q) :=
  (vmin <- py_min values ;;
   vmax <- py_max values ;;
   Ok (Normalize vmin vmax true))%result.

(** The body of [for idx in range(0, len(a['x']))]. *)
Definition plot_point (a : ddict) (key : string) (norm : Q -> result Q)
    (idx : nat) : Py unit :=
  (x <- lift (getitem (dd_get "x" a) idx) ;;
   y <- lift (getitem (dd_get "y" a) idx) ;;
   v <- lift (getitem (dd_get key a) idx) ;;
   c <- lift (to_rgba norm v) ;;
   emit (PpPlot x y c))%py.

Definition _plot (self : HeatMapGenerator) (a : ddict) (key title : string)
    (gx gy : list Q) (num_x num_y : Z) : Py unit :=
  (emit (RcFigsize (inject_Z (_image_width self) / 300)
                   (inject_Z (_image_height self) / 300)) ;;
   emit (PpTitle title) ;;
   rbf <- lift (Rbf (dd_get "x" a) (dd_get "y" a) (dd_get key a)) ;;
   let z := map (fun p => rbf (fst p) (snd p)) (combine gx gy) in
   z <- lift (Np.reshape z num_y num_x) ;;
   emit PpAxisOff ;;
   norm <- lift (plot_norm (dd_get key a)) ;;
   emit (PpImshowField z 0 (_image_width self) (_image_height self) 0) ;;
   emit PpColorbar ;;
   emit PpImshowLayout ;;
   for_each (seq 0 (List.length (dd_get "x" a))) (plot_point a key norm) ;;
   emit (PpSavefig (key ++ "_" ++ _title self ++ ".png")%string) ;;
   emit PpCloseAll)%py.

Definition generate (self : HeatMapGenerator) : Py unit :=
  (a <- lift (aggregate self) ;;
   _plot_channels self ;;
   shape <- lift (grid_shape (_image_width self) (_image_height self)) ;;
   let (num_x, num_y) := shape : Z * Z in
   axes <- lift (grid_axes (_image_width self) (_image_height self)
                           num_x num_y) ;;
   let (gx, gy) := Np.meshgrid_flat (fst axes) (snd axes) in
   for_each metric_titles (fun kt =>
     _plot self a (fst kt) (_title self ++ " - " ++ snd kt)%string
           gx gy num_x num_y))%py.

End Plot.

(** The marker events of a trace. *)
Definition is_marker (ev : event) : bool :=
  match ev with PpPlot _ _ _ => true | _ => false end.

Definition markers (tr : list event) : list event := filter is_marker tr.

Definition is_savefig (ev : event) : bool :=
  match ev with PpSavefig _ => true | _ => false end.

(* ===================================================================== *)
(** ** Vocabulary of the statements *)
(* ===================================================================== *)

(** The metric keys with the field of a record each one collects. *)
Definition metric_fields : list (string * (Row -> Q)) :=
  [("rssi", iwconfig_level);
   ("quality", iwconfig_quality);
   ("tcp_upload_Mbps", tcp_sent_Mbps);
   ("tcp_download_Mbps", tcp_reverse_received_Mbps);
   ("udp_Mbps", udp_Mbps);
   ("jitter", udp_jitter_ms)].

(** The dict with all eight keys, in the order the first record creates
    them. *)
Definition full_dict (lx ly l1 l2 l3 l4 l5 l6 : list Q) : ddict :=
  [("x", lx); ("y", ly); ("rssi", l1); ("quality", l2);
   ("tcp_upload_Mbps", l3); ("tcp_download_Mbps", l4);
   ("udp_Mbps", l5); ("jitter", l6)].

(** The list stored under a frequency key, empty when the key is absent. *)
Definition fd_list (f : Q) (ch : list (Q * list Q)) : list Q :=
  match fd_get f ch with
  | Some l => l
  | None => []
  end.

(** A scan that [_plot_channels] files under key [f]. *)
Definition counted (ignore : list string) (f : Q) (scan : Scan) : bool :=
  negb (str_in (ESSID scan) ignore)
  && Qeq_bool (Frequency scan / 1000000) f.

(** The quality scores of all counted scans, over all records in order. *)
Definition observed (ignore : list string) (data : list Row) (f : Q)
  : list Q :=
  map stats_quality (filter (counted ignore f) (flat_map iwscan data)).


(** The marker that the loop of [_plot] draws for index [idx]. *)
Definition marker_at (xs ys vs : list Q) (norm : Q -> result Q)
    (ev : event) (idx : nat) : Prop :=
  exists x y v t,
    nth_error xs idx = Some x /\ nth_error ys idx = Some y /\
    nth_error vs idx = Some v /\ norm v = Ok t /\
    ev = PpPlot x y (RdYlBu_r t).

(* ===================================================================== *)
(** ** Example surveys *)
(* ===================================================================== *)

Definition scan_a : Scan :=
  {| ESSID := "alpha"; Frequency := 2412000000; stats_quality := 50 |}.

Definition scan_b : Scan :=
  {| ESSID := "beta"; Frequency := 2412000000; stats_quality := 70 |}.

Definition point_a : Row :=
  {| row_x := 10; row_y := 10;
     iwconfig_level := -50; iwconfig_quality := 60;
     tcp_sent_Mbps := 5 # 2; tcp_reverse_received_Mbps := 3;
     udp_Mbps := 1; udp_jitter_ms := 1 # 10;
     iwscan := [scan_a] |}.

Definition point_b : Row :=
  {| row_x := 20; row_y := 30;
     iwconfig_level := -70; iwconfig_quality := 40;
     tcp_sent_Mbps := 7 # 2; tcp_reverse_received_Mbps := 2;
     udp_Mbps := 1; udp_jitter_ms := 1 # 10;
     iwscan := [scan_b] |}.

(** An image of [rows] by [cols] black pixels. *)
Definition blank (rows cols : nat) : image :=
  repeat (repeat [0; 0; 0] cols) rows.

(** The generator that [__init__] builds for a 9-row, 8-column image. *)
Definition survey (data : list Row) (ignore : list string)
  : HeatMapGenerator :=
  {| _image_path := "plan.png"; _title := "home";
     _ignore_ssids := ignore; _layout := blank 9 8;
     _image_width := 8; _image_height := 8; _data := data |}.

(** An interpolator that fits everything and answers 0 everywhere. *)
Definition flat_rbf (_ _ _ : list Q) : result (Q -> Q -> Q) :=
  Ok (fun _ _ => 0).

(** The grid of an 8 by 8 image: two samples per axis. *)
Definition grid8 : list Q * list Q := Np.meshgrid_flat [0; 8] [0; 8].

(** The dict that [generate] builds for the survey of [point_a] alone. *)
Definition point_a_dict : ddict :=
  full_dict [10; 0; 0; 8; 8] [10; 0; 8; 0; 8]
    [-50; -50; -50; -50; -50] [60; 60; 60; 60; 60]
    [5 # 2; 5 # 2; 5 # 2; 5 # 2; 5 # 2]
    [3; 3; 3; 3; 3] [1; 1; 1; 1; 1]
    [1 # 10; 1 # 10; 1 # 10; 1 # 10; 1 # 10].

(** Two calls of [_plot] on it, with the interpolator [flat_rbf]. *)
Definition rssi_run : Py unit :=
  _plot flat_rbf (survey [point_a] []) point_a_dict
        "rssi" "home - RSSI (level)" (fst grid8) (snd grid8) 2 2.

Definition jitter_run : Py unit :=
  _plot flat_rbf (survey [point_a] []) point_a_dict
        "jitter" "home - UDP Jitter (ms)" (fst grid8) (snd grid8) 2 2.

(** The events that [_plot] emits before its marker loop. *)
Definition plot_prelude (self : HeatMapGenerator) (title : string)
    (z : list (list Q)) : list event :=
  [RcFigsize (inject_Z (_image_width self) / 300)
             (inject_Z (_image_height self) / 300);
   PpTitle title; PpAxisOff;
   PpImshowField z 0 (_image_width self) (_image_height self) 0;
   PpColorbar; PpImshowLayout].

(* ===================================================================== *)
(** ** The channel table, logging and [main] *)
(* ===================================================================== *)

(** [WIFI_CHANNELS]: center frequency (MHz) to (channel, bandwidth MHz),
    in the order of the dict literal. *)
Definition WIFI_CHANNELS : list (Z * (Z * Z)) :=
  ((
  [(2412, (1, 20)); (2417, (2, 20)); (2422, (3, 20)); (2427, (4, 20));
   (2432, (5, 20)); (2437, (6, 20)); (2442, (7, 20)); (2447, (8, 20));
   (2452, (9, 20)); (2457, (10, 20)); (2462, (11, 20)); (2467, (12, 20));
   (2472, (13, 20)); (2484, (14, 20)); (5160, (32, 20)); (5170, (34, 40));
   (5180, (36, 20)); (5190, (38, 40)); (5200, (40, 20)); (5210, (42, 80));
   (5220, (44, 20)); (5230, (46, 40)); (5240, (48, 20)); (5250, (50, 160));
   (5260, (52, 20)); (5270, (54, 40)); (5280, (56, 20)); (5290, (58, 80));
   (5300, (60, 20)); (5310, (62, 40)); (5320, (64, 20)); (5340, (68, 20));
   (5480, (96, 20)); (5500, (100, 20)); (5510, (102, 40));
   (5520, (104, 20)); (5530, (106, 80)); (5540, (108, 20));
   (5550, (110, 40)); (5560, (112, 20)); (5570, (114, 160));
   (5580, (116, 20)); (5590, (118, 40)); (5600, (120, 20));
   (5610, (122, 80)); (5620, (124, 20)); (5630, (126, 40));
   (5640, (128, 20)); (5660, (132, 20)); (5670, (134, 40));
   (5680, (136, 20)); (5690, (138, 80)); (5700, (140, 20));
   (5710, (142, 40)); (5720, (144, 20)); (5745, (149, 20));
   (5755, (151, 40)); (5765, (153, 20)); (5775, (155, 80));
   (5785, (157, 20)); (5795, (159, 40)); (5805, (161, 20));
   (5825, (165, 20))])%Z : list (Z * (Z * Z))).

(** [WIFI_CHANNELS.get(freq)]. *)
Definition wifi_channel (freq : Z) : option (Z * Z) :=
  option_map snd (find (fun e => (fst e =? freq)%Z) WIFI_CHANNELS).

(** The band plan that an entry of the table can be checked against:
    2407 + 5 * channel MHz for channels 1 to 13, 2484 MHz for channel 14,
    5000 + 5 * channel MHz for the 5 GHz channels, and a width of 20, 40,
    80 or 160 MHz. *)
Definition follows_plan (e : Z * (Z * Z)) : bool :=
  let '(freq, (channel, width)) := e in
  ((((1 <=? channel) && (channel <=? 13) && (freq =? 2407 + 5 * channel))
    || ((channel =? 14) && (freq =? 2484))
    || ((32 <=? channel) && (channel <=? 165)
        && (freq =? 5000 + 5 * channel)))
   && ((width =? 20) || (width =? 40) || (width =? 80) || (width =? 160)))%Z.

(** The levels of the [logging] module. *)
Definition DEBUG : Z := 10.
Definition INFO : Z := 20.
Definition WARNING : Z := 30.

Definition FORMAT : string := "[%(asctime)s %(levelname)s] %(message)s".

(** The root logger: its level and the format of its first handler. *)
Record Logger : Type := {
  logger_level : Z;
  handler_format : string
}.

(** After [logging.basicConfig(level=logging.WARNING, format=FORMAT)]. *)
Definition logger0 : Logger :=
  {| logger_level := WARNING; handler_format := FORMAT |}.

Definition set_log_level_format (level : Z) (format : string)
    (logger : Logger) : Logger :=
  {| logger_level := level; handler_format := format |}.

Definition set_log_info (logger : Logger) : Logger :=
  set_log_level_format INFO
    "%(asctime)s %(levelname)s:%(name)s:%(message)s" logger.

Definition set_log_debug (logger : Logger) : Logger :=
  set_log_level_format DEBUG
    ("%(asctime)s [%(levelname)s %(filename)s:%(lineno)s - "
     ++ "%(name)s.%(funcName)s() ] %(message)s")%string logger.

(** What [parse_args] returns. *)
Record Args : Type := {
  verbose : Z;
  ignore : list string;
  IMAGE : string;
  TITLE : string
}.

Section Main.

(** The files of the run: what [imread] makes of a path and what
    [json.loads] makes of the file under a path.  Both may raise
    ([OSError] for a file that cannot be read, [ValueError] for one that
    cannot be decoded). *)
Variable imread : string -> result image.
Variable json_file : string -> result (list Row).
Variable Rbf : list Q -> list Q -> list Q -> result (Q -> Q -> Q).

(** [main] from the point where [parse_args] has returned [args]: the
    logger it leaves and the run.  The constructor reads in the order of
    the source: the image, its first row, then the JSON file. *)
Definition main (args : Args) (logger : Logger) : Logger * Py unit :=
  let logger :=
    if (1 <? verbose args)%Z then set_log_debug logger
    else if (verbose args =? 1)%Z then set_log_info logger
    else logger in
  (logger,
   (layout <- lift (imread (IMAGE args)) ;;
    data <- lift (_ <- getitem layout 0 ;;
                  json_file (TITLE args ++ ".json")%string)%result ;;
    self <- lift (__init__ layout data
                           (IMAGE args) (TITLE args) (ignore args)) ;;
    generate Rbf self)%py).

End Main.

(* ===================================================================== *)
(** ** Facts about the runtime pieces *)
(* ===================================================================== *)

Section MinMax.

Lemma Qlt_bool_true (p q : Q) : Qlt_bool p q = true <-> p < q.
Proof.
  unfold Qlt_bool. rewrite negb_true_iff.
  split; intro H.
  - apply Qnot_le_lt. intro Hle. apply Qle_bool_iff in Hle. congruence.
  - destruct (Qle_bool q p) eqn:E; [|reflexivity].
    apply Qle_bool_iff in E. exfalso. apply (Qlt_not_le _ _ H E).
Qed.

Lemma Qlt_bool_false (p q : Q) : Qlt_bool p q = false <-> q <= p.
Proof.
  unfold Qlt_bool. rewrite negb_false_iff. apply Qle_bool_iff.
Qed.

Lemma Qlt_bool_irrefl (p : Q) : Qlt_bool p p = false.
Proof. apply Qlt_bool_false. apply Qle_refl. Qed.

Lemma fold_min_spec (l : list Q) : forall m0,
  let m := fold_left min_step l m0 in
  (m = m0 \/ In m l) /\ m <= m0 /\ (forall v, In v l -> m <= v).
Proof.
  induction l as [|w l IH]; intros m0; simpl.
  - split; [now left|]. split; [apply Qle_refl|]. intros v [].
  - destruct (IH (min_step m0 w)) as (Hin & Hle & Hall).
    assert (Hstep : min_step m0 w <= m0 /\ min_step m0 w <= w).
    { unfold min_step. destruct (Qlt_bool w m0) eqn:E.
      - apply Qlt_bool_true in E. split; [now apply Qlt_le_weak|apply Qle_refl].
      - apply Qlt_bool_false in E. split; [apply Qle_refl|assumption]. }
    destruct Hstep as (H0 & Hw).
    split; [|split].
    + destruct Hin as [Heq|Hin]; [|now right; right].
      rewrite Heq. unfold min_step.
      destruct (Qlt_bool w m0); [right; now left|now left].
    + eapply Qle_trans; eassumption.
    + intros v [<-|Hv]; [eapply Qle_trans; eassumption|now apply Hall].
Qed.

Lemma fold_max_spec (l : list Q) : forall m0,
  let m := fold_left max_step l m0 in
  (m = m0 \/ In m l) /\ m0 <= m /\ (forall v, In v l -> v <= m).
Proof.
  induction l as [|w l IH]; intros m0; simpl.
  - split; [now left|]. split; [apply Qle_refl|]. intros v [].
  - destruct (IH (max_step m0 w)) as (Hin & Hle & Hall).
    assert (Hstep : m0 <= max_step m0 w /\ w <= max_step m0 w).
    { unfold max_step. destruct (Qlt_bool m0 w) eqn:E.
      - apply Qlt_bool_true in E. split; [now apply Qlt_le_weak|apply Qle_refl].
      - apply Qlt_bool_false in E. split; [apply Qle_refl|assumption]. }
    destruct Hstep as (H0 & Hw).
    split; [|split].
    + destruct Hin as [Heq|Hin]; [|now right; right].
      rewrite Heq. unfold max_step.
      destruct (Qlt_bool m0 w); [right; now left|now left].
    + eapply Qle_trans; eassumption.
    + intros v [<-|Hv]; [eapply Qle_trans; eassumption|now apply Hall].
Qed.

(** [min(l)] is an element of [l] below every element of [l]. *)
Lemma py_min_spec (l : list Q) (m : Q) :
  py_min l = Ok m -> In m l /\ (forall v, In v l -> m <= v).
Proof.
  destruct l as [|v l]; simpl; [discriminate|].
  intros [= <-].
  pose proof (fold_min_spec l v) as Hs.
  cbv zeta in Hs. destruct Hs as (Hin & Hle & Hall).
  split.
  - destruct Hin as [Heq|Hin]; [left; now rewrite Heq|now right].
  - intros w [<-|Hw]; [exact Hle|now apply Hall].
Qed.

Lemma py_max_spec (l : list Q) (m : Q) :
  py_max l = Ok m -> In m l /\ (forall v, In v l -> v <= m).
Proof.
  destruct l as [|v l]; simpl; [discriminate|].
  intros [= <-].
  pose proof (fold_max_spec l v) as Hs.
  cbv zeta in Hs. destruct Hs as (Hin & Hle & Hall).
  split.
  - destruct Hin as [Heq|Hin]; [left; now rewrite Heq|now right].
  - intros w [<-|Hw]; [exact Hle|now apply Hall].
Qed.

(** Appending the minimum does not change the minimum: the padding loop
    may take [min] of a list that already holds earlier padding values. *)
Lemma py_min_app_min (l : list Q) (m : Q) :
  py_min l = Ok m -> py_min (l ++ [m]) = Ok m.
Proof.
  destruct l as [|v l]; simpl; [discriminate|].
  intros [= <-]. f_equal.
  rewrite fold_left_app. simpl. unfold min_step at 1.
  now rewrite Qlt_bool_irrefl.
Qed.

Lemma py_min_total (l : list Q) : l <> [] -> exists m, py_min l = Ok m.
Proof. destruct l; [congruence|]. intros _. simpl. eauto. Qed.

Lemma py_max_total (l : list Q) : l <> [] -> exists m, py_max l = Ok m.
Proof. destruct l; [congruence|]. intros _. simpl. eauto. Qed.

End MinMax.

(* ===================================================================== *)
(** ** Aggregation and padding *)
(* ===================================================================== *)

Section Aggregate.

Lemma collect_full (data : list Row) : forall lx ly l1 l2 l3 l4 l5 l6,
  fold_left collect_row data (full_dict lx ly l1 l2 l3 l4 l5 l6) =
  full_dict (lx ++ map row_x data) (ly ++ map row_y data)
            (l1 ++ map iwconfig_level data)
            (l2 ++ map iwconfig_quality data)
            (l3 ++ map tcp_sent_Mbps data)
            (l4 ++ map tcp_reverse_received_Mbps data)
            (l5 ++ map udp_Mbps data)
            (l6 ++ map udp_jitter_ms data).
Proof.
  induction data as [|r data IH]; intros; simpl.
  - now rewrite !app_nil_r.
  - unfold collect_row, full_dict. cbn.
    change (fold_left collect_row data
              (full_dict (lx ++ [row_x r]) (ly ++ [row_y r])
                 (l1 ++ [iwconfig_level r]) (l2 ++ [iwconfig_quality r])
                 (l3 ++ [tcp_sent_Mbps r])
                 (l4 ++ [tcp_reverse_received_Mbps r])
                 (l5 ++ [udp_Mbps r]) (l6 ++ [udp_jitter_ms r])) = 
            full_dict (lx ++ row_x r :: map row_x data)
              (ly ++ row_y r :: map row_y data)
              (l1 ++ iwconfig_level r :: map iwconfig_level data)
              (l2 ++ iwconfig_quality r :: map iwconfig_quality data)
              (l3 ++ tcp_sent_Mbps r :: map tcp_sent_Mbps data)
              (l4 ++ tcp_reverse_received_Mbps r
                  :: map tcp_reverse_received_Mbps data)
              (l5 ++ udp_Mbps r :: map udp_Mbps data)
              (l6 ++ udp_jitter_ms r :: map udp_jitter_ms data)).
    rewrite IH. now rewrite <- !app_assoc.
Qed.

(** After a non-empty dataset all eight sequences exist, aligned with the
    records. *)
Lemma collect_nonempty (data : list Row) :
  data <> [] ->
  collect data =
  full_dict (map row_x data) (map row_y data)
            (map iwconfig_level data) (map iwconfig_quality data)
            (map tcp_sent_Mbps data) (map tcp_reverse_received_Mbps data)
            (map udp_Mbps data) (map udp_jitter_ms data).
Proof.
  destruct data as [|r data]; [congruence|]. intros _.
  unfold collect. simpl fold_left.
  change (collect_row [] r) with
    (full_dict [row_x r] [row_y r] [iwconfig_level r] [iwconfig_quality r]
       [tcp_sent_Mbps r] [tcp_reverse_received_Mbps r] [udp_Mbps r]
       [udp_jitter_ms r]).
  now rewrite collect_full.
Qed.

(** One pass of the padding loop over the full dict. *)
Lemma pad_corner_full lx ly l1 l2 l3 l4 l5 l6 m1 m2 m3 m4 m5 m6 c :
  py_min l1 = Ok m1 -> py_min l2 = Ok m2 -> py_min l3 = Ok m3 ->
  py_min l4 = Ok m4 -> py_min l5 = Ok m5 -> py_min l6 = Ok m6 ->
  pad_corner (full_dict lx ly l1 l2 l3 l4 l5 l6) c =
  Ok (full_dict (lx ++ [fst c]) (ly ++ [snd c]) (l1 ++ [m1]) (l2 ++ [m2])
        (l3 ++ [m3]) (l4 ++ [m4]) (l5 ++ [m5]) (l6 ++ [m6])).
Proof.
  intros H1 H2 H3 H4 H5 H6.
  unfold pad_corner, full_dict. cbn -[py_min].
  unfold pad_key. cbn -[py_min].
  rewrite H1. cbn -[py_min]. rewrite H2. cbn -[py_min].
  rewrite H3. cbn -[py_min]. rewrite H4. cbn -[py_min].
  rewrite H5. cbn -[py_min]. rewrite H6. reflexivity.
Qed.

Lemma pad_full W H lx ly l1 l2 l3 l4 l5 l6 m1 m2 m3 m4 m5 m6 :
  py_min l1 = Ok m1 -> py_min l2 = Ok m2 -> py_min l3 = Ok m3 ->
  py_min l4 = Ok m4 -> py_min l5 = Ok m5 -> py_min l6 = Ok m6 ->
  rfold pad_corner (corners W H) (full_dict lx ly l1 l2 l3 l4 l5 l6) =
  Ok (full_dict (lx ++ [0; 0; inject_Z W; inject_Z W])
        (ly ++ [0; inject_Z H; 0; inject_Z H])
        (l1 ++ [m1; m1; m1; m1]) (l2 ++ [m2; m2; m2; m2])
        (l3 ++ [m3; m3; m3; m3]) (l4 ++ [m4; m4; m4; m4])
        (l5 ++ [m5; m5; m5; m5]) (l6 ++ [m6; m6; m6; m6])).
Proof.
  intros H1 H2 H3 H4 H5 H6.
  unfold corners. cbn [rfold].
  do 3 (erewrite pad_corner_full by (eauto using py_min_app_min);
        cbn [rbind fst snd];
        apply py_min_app_min in H1, H2, H3, H4, H5, H6).
  erewrite pad_corner_full by eauto. cbn [rbind fst snd].
  now rewrite <- !app_assoc.
Qed.

(** With no record no metric key exists: the padding loop finds only
    ['x'] and ['y'] and never calls [min]. *)
Lemma pad_empty W H :
  rfold pad_corner (corners W H) [] =
  Ok [("x", [0; 0; inject_Z W; inject_Z W]);
      ("y", [0; inject_Z H; 0; inject_Z H])].
Proof. reflexivity. Qed.

Lemma aggregate_total (self : HeatMapGenerator) :
  exists a, aggregate self = Ok a.
Proof.
  unfold aggregate. destruct (_data self) as [|r data] eqn:E.
  - rewrite pad_empty. eauto.
  - rewrite collect_nonempty by congruence.
    erewrite pad_full; [eauto|simpl; reflexivity..].
Qed.

End Aggregate.

(* ===================================================================== *)
(** ** The channel aggregate *)
(* ===================================================================== *)

Section Channels.

Variable ignore : list string.

Lemma Qeq_bool_sym (p q : Q) : Qeq_bool p q = Qeq_bool q p.
Proof.
  destruct (Qeq_bool p q) eqn:E1, (Qeq_bool q p) eqn:E2; try reflexivity.
  - apply Qeq_bool_iff in E1. symmetry in E1.
    apply Qeq_bool_iff in E1. congruence.
  - apply Qeq_bool_iff in E2. symmetry in E2.
    apply Qeq_bool_iff in E2. congruence.
Qed.

Lemma Qeq_bool_trans_l (p q r : Q) :
  Qeq_bool p q = true -> Qeq_bool p r = Qeq_bool q r.
Proof.
  intro E. apply Qeq_bool_iff in E.
  destruct (Qeq_bool p r) eqn:E1, (Qeq_bool q r) eqn:E2; try reflexivity.
  - apply Qeq_bool_iff in E1. rewrite E in E1.
    apply Qeq_bool_iff in E1. congruence.
  - apply Qeq_bool_iff in E2. rewrite <- E in E2.
    apply Qeq_bool_iff in E2. congruence.
Qed.

Lemma fd_list_append (f k v : Q) (ch : list (Q * list Q)) :
  fd_list f (fd_append k v ch) =
  if Qeq_bool k f then fd_list f ch ++ [v] else fd_list f ch.
Proof.
  unfold fd_list.
  induction ch as [|[k' l] ch IH]; simpl.
  - rewrite (Qeq_bool_sym f k). now destruct (Qeq_bool k f).
  - destruct (Qeq_bool k k') eqn:Ek; simpl.
    + rewrite (Qeq_bool_trans_l _ _ f Ek), (Qeq_bool_sym k' f).
      now destruct (Qeq_bool f k').
    + destruct (Qeq_bool f k') eqn:Ef; [|exact IH].
      rewrite (Qeq_bool_sym k f), (Qeq_bool_trans_l _ _ k Ef).
      now rewrite (Qeq_bool_sym k' k), Ek.
Qed.

Lemma fd_append_nonempty (k v : Q) (ch : list (Q * list Q)) :
  Forall (fun kv => snd kv <> []) ch ->
  Forall (fun kv => snd kv <> []) (fd_append k v ch).
Proof.
  induction 1 as [|[k' l] ch Hl Hch IH]; simpl.
  - constructor; [discriminate|constructor].
  - destruct (Qeq_bool k k'); constructor; auto.
    simpl. destruct l; discriminate.
Qed.

Lemma bucket_scans_list (f : Q) (scans : list Scan) : forall ch,
  fd_list f (fold_left (bucket_scan ignore) scans ch) =
  fd_list f ch ++ map stats_quality (filter (counted ignore f) scans).
Proof.
  induction scans as [|s scans IH]; intros ch; simpl.
  - now rewrite app_nil_r.
  - rewrite IH. unfold bucket_scan, counted at 2.
    destruct (str_in (ESSID s) ignore); simpl; [reflexivity|].
    rewrite fd_list_append.
    destruct (Qeq_bool (Frequency s / 1000000) f); simpl;
      [now rewrite <- app_assoc|reflexivity].
Qed.

Lemma bucket_scans_nonempty (scans : list Scan) : forall ch,
  Forall (fun kv => snd kv <> []) ch ->
  Forall (fun kv => snd kv <> [])
         (fold_left (bucket_scan ignore) scans ch).
Proof.
  induction scans as [|s scans IH]; intros ch Hch; simpl; [exact Hch|].
  apply IH. unfold bucket_scan.
  destruct (str_in (ESSID s) ignore); [exact Hch|].
  now apply fd_append_nonempty.
Qed.

Lemma bucket_rows_list (f : Q) (data : list Row) : forall ch,
  fd_list f (bucket_rows ignore data ch)
  = fd_list f ch ++ observed ignore data f.
Proof.
  unfold observed, bucket_rows.
  induction data as [|r data IH]; intros ch; simpl.
  - now rewrite app_nil_r.
  - rewrite IH, bucket_scans_list, filter_app, map_app.
    now rewrite <- app_assoc.
Qed.

Lemma bucket_rows_nonempty (data : list Row) : forall ch,
  Forall (fun kv => snd kv <> []) ch ->
  Forall (fun kv => snd kv <> []) (bucket_rows ignore data ch).
Proof.
  unfold bucket_rows.
  induction data as [|r data IH]; intros ch Hch; simpl; [exact Hch|].
  apply IH. now apply bucket_scans_nonempty.
Qed.

(** Every bucket holds exactly the counted scores of its frequency. *)
Lemma bucket_list (f : Q) (data : list Row) :
  fd_list f (bucket ignore data) = observed ignore data f.
Proof. exact (bucket_rows_list f data []). Qed.

Lemma bucket_nonempty (data : list Row) :
  Forall (fun kv => snd kv <> []) (bucket ignore data).
Proof. apply (bucket_rows_nonempty data []). constructor. Qed.

End Channels.

Lemma mean_nonempty (l : list Q) :
  l <> [] -> mean l = Ok (py_sum l / inject_Z (len l)).
Proof.
  intro Hl. unfold mean, truediv.
  destruct (Qeq_bool (inject_Z (len l)) 0) eqn:E; [|reflexivity].
  apply Qeq_bool_iff in E. exfalso.
  destruct l as [|v l]; [congruence|].
  unfold len, Qeq, inject_Z in E. simpl in E. lia.
Qed.

(** The division of [_plot_channels] never fails, and replaces every
    bucket by its mean. *)
Lemma means_nonempty (ch : list (Q * list Q)) :
  Forall (fun kv => snd kv <> []) ch ->
  exists ms, means ch = Ok ms /\
    forall f, fd_get f ms =
              option_map (fun l => py_sum l / inject_Z (len l)) (fd_get f ch).
Proof.
  unfold means.
  induction 1 as [|[k l] ch Hl Hch (ms & Hms & Hget)]; simpl.
  - exists []. split; [reflexivity|]. intros f. reflexivity.
  - simpl in Hl. rewrite (mean_nonempty l Hl). simpl. rewrite Hms. simpl.
    eexists. split; [reflexivity|]. intros f. simpl.
    destruct (Qeq_bool f k); [reflexivity|apply Hget].
Qed.

Lemma fd_get_nonempty (f : Q) (ch : list (Q * list Q)) (l : list Q) :
  Forall (fun kv => snd kv <> []) ch -> fd_get f ch = Some l -> l <> [].
Proof.
  induction 1 as [|[k l'] ch Hl Hch IH]; simpl; [discriminate|].
  destruct (Qeq_bool f k); [intros [= <-]; exact Hl|exact IH].
Qed.

(** What [_plot_channels] prints, and how it ends. *)
Lemma plot_channels_run (self : HeatMapGenerator) :
  exists ch,
    means (bucket (_ignore_ssids self) (_data self)) = Ok ch /\
    _plot_channels self = ([Print ch], Raise NotImplementedError) /\
    forall f,
      fd_get f ch =
      match observed (_ignore_ssids self) (_data self) f with
      | [] => None
      | qs => Some (py_sum qs / inject_Z (len qs))
      end.
Proof.
  destruct (means_nonempty _ (bucket_nonempty (_ignore_ssids self)
                                              (_data self)))
    as (ch & Hch & Hget).
  exists ch. split; [exact Hch|]. split.
  - unfold _plot_channels. rewrite Hch. reflexivity.
  - intros f. rewrite Hget.
    rewrite <- (bucket_list (_ignore_ssids self) f (_data self)).
    unfold fd_list.
    destruct (fd_get f (bucket (_ignore_ssids self) (_data self)))
      as [l|] eqn:E; simpl; [|reflexivity].
    apply fd_get_nonempty in E; [|apply bucket_nonempty].
    destruct l; [congruence|reflexivity].
Qed.

(* ===================================================================== *)
(** ** Colour normalisation *)
(* ===================================================================== *)

Section Normalisation.

Variables (values : list Q) (lo hi : Q).
Hypothesis Hlo : py_min values = Ok lo.
Hypothesis Hhi : py_max values = Ok hi.

Lemma plot_norm_bounds : plot_norm values = Ok (Normalize lo hi true).
Proof. unfold plot_norm. now rewrite Hlo, Hhi. Qed.

Lemma min_le_max : lo <= hi.
Proof.
  apply py_max_spec in Hhi. apply py_min_spec in Hlo.
  destruct Hhi as (_ & Hall). destruct Hlo as (Hin & _). now apply Hall.
Qed.

Lemma clip_between (v : Q) : lo <= Np.clip v lo hi <= hi.
Proof.
  pose proof min_le_max as Hle. unfold Np.clip.
  destruct (Qlt_bool v lo) eqn:E1.
  - split; [apply Qle_refl|exact Hle].
  - apply Qlt_bool_false in E1. destruct (Qlt_bool hi v) eqn:E2.
    + split; [exact Hle|apply Qle_refl].
    + apply Qlt_bool_false in E2. now split.
Qed.

Lemma clip_below (v : Q) : v <= lo -> Np.clip v lo hi == lo.
Proof.
  intro Hv. unfold Np.clip. destruct (Qlt_bool v lo) eqn:E1; [reflexivity|].
  apply Qlt_bool_false in E1. pose proof min_le_max as Hle.
  destruct (Qlt_bool hi v) eqn:E2.
  - apply Qlt_bool_true in E2. lra.
  - lra.
Qed.

Lemma clip_above (v : Q) : hi <= v -> Np.clip v lo hi == hi.
Proof.
  intro Hv. unfold Np.clip. pose proof min_le_max as Hle.
  destruct (Qlt_bool v lo) eqn:E1.
  - apply Qlt_bool_true in E1. lra.
  - destruct (Qlt_bool hi v) eqn:E2; [reflexivity|].
    apply Qlt_bool_false in E2. lra.
Qed.

Lemma clip_inside (v : Q) : lo <= v <= hi -> Np.clip v lo hi = v.
Proof.
  intros [H1 H2]. unfold Np.clip.
  destruct (Qlt_bool v lo) eqn:E1.
  - apply Qlt_bool_true in E1. lra.
  - destruct (Qlt_bool hi v) eqn:E2; [|reflexivity].
    apply Qlt_bool_true in E2. lra.
Qed.

(** Equal bounds: [Normalize] fills its result with 0. *)
Lemma Normalize_degenerate (v : Q) :
  lo == hi -> Normalize lo hi true v = Ok 0.
Proof.
  intro E. unfold Normalize. apply Qeq_bool_iff in E. now rewrite E.
Qed.

(** Distinct bounds: the clipped value is scaled linearly. *)
Lemma Normalize_regular (v : Q) :
  ~ lo == hi ->
  Normalize lo hi true v = Ok ((Np.clip v lo hi - lo) / (hi - lo)).
Proof.
  intro NE. unfold Normalize.
  destruct (Qeq_bool lo hi) eqn:E.
  - apply Qeq_bool_iff in E. contradiction.
  - assert (Hlt : Qlt_bool hi lo = false)
      by (apply Qlt_bool_false; exact min_le_max).
    now rewrite Hlt.
Qed.

Lemma scaled_in_unit (c : Q) :
  ~ lo == hi -> lo <= c <= hi ->
  0 <= (c - lo) / (hi - lo) <= 1.
Proof.
  intros NE [H1 H2]. pose proof min_le_max as Hle.
  assert (Hd : 0 < hi - lo) by lra.
  split.
  - apply Qle_shift_div_l; [exact Hd|lra].
  - apply Qle_shift_div_r; [exact Hd|lra].
Qed.

End Normalisation.

(* ===================================================================== *)
(** ** The grid *)
(* ===================================================================== *)

Section Grid.

Lemma py_int_nonneg (q : Q) : 0 <= q -> (0 <= py_int q)%Z.
Proof.
  intro Hq. unfold py_int. apply Z.quot_pos; [|lia].
  unfold Qle in Hq. simpl in Hq. lia.
Qed.

Lemma inject_Z_pos_neq (n : Z) : (0 < n)%Z -> Qeq_bool (inject_Z n) 0 = false.
Proof.
  intro Hn. destruct (Qeq_bool (inject_Z n) 0) eqn:E; [|reflexivity].
  apply Qeq_bool_iff in E. unfold Qeq, inject_Z in E. simpl in E. lia.
Qed.

Lemma ratio_pos (W H : Z) :
  (0 < W)%Z -> (0 < H)%Z -> 0 < inject_Z W / inject_Z H.
Proof.
  intros HW HH. apply Qlt_shift_div_l.
  - unfold Qlt, inject_Z. simpl. lia.
  - unfold Qlt, inject_Z, Qmult. simpl. lia.
Qed.

(** Rounding to the nearest integer never goes below the floor. *)
Lemma rne_ge_floor (num den : Z) : (num / den <= rne num den)%Z.
Proof.
  unfold rne. destruct (2 * (num mod den) ?= den)%Z; [|lia|lia].
  destruct (Z.even (num / den)); lia.
Qed.


(** Rounding to the nearest integer never goes above an integer bound. *)
Lemma rne_le_bound (num den k : Z) :
  (0 < den)%Z -> (num <= k * den)%Z -> (rne num den <= k)%Z.
Proof.
  intros Hd Hk.
  pose proof (Z.div_mod num den ltac:(lia)) as Hdm.
  pose proof (Z.mod_pos_bound num den Hd) as Hm.
  assert (Hq : (num / den <= k)%Z) by nia.
  unfold rne.
  assert (Hc : (num / den < k)%Z \/ (num / den = k /\ num mod den = 0)%Z)
    by nia.
  destruct Hc as [Hlt|[Heq Hz]].
  - destruct (2 * (num mod den) ?= den)%Z; [|lia|lia].
    destruct (Z.even (num / den)); lia.
  - rewrite Hz. change (2 * 0)%Z with 0%Z.
    destruct (Z.compare_spec 0 den); lia.
Qed.

(** The fraction that [nearest] rounds is at least 2^51, from the
    positions of the leading bits of [n] and [d]. *)
Lemma nearest_scaled (n d : positive) :
  let e0 := (Z.log2 (Zpos n) - Z.log2 (Zpos d) - 52)%Z in
  let num0 := if (e0 <=? 0)%Z then (Zpos n * 2 ^ (- e0))%Z else Zpos n in
  let den0 := if (e0 <=? 0)%Z then Zpos d else (Zpos d * 2 ^ e0)%Z in
  (0 < den0)%Z /\ (2 ^ 51 * den0 <= num0)%Z.
Proof.
  intros e0 num0 den0.
  pose proof (Z.log2_spec (Zpos n) eq_refl) as [Hn1 Hn2].
  pose proof (Z.log2_spec (Zpos d) eq_refl) as [Hd1 Hd2].
  pose proof (Z.log2_nonneg (Zpos n)) as Ha.
  pose proof (Z.log2_nonneg (Zpos d)) as Hb.
  set (a := Z.log2 (Zpos n)) in *. set (b := Z.log2 (Zpos d)) in *.
  subst num0 den0. destruct (Z.leb_spec e0 0) as [He|He].
  - split; [lia|].
    replace (- e0)%Z with (52 + b - a)%Z by (subst e0; lia).
    assert (H1 : (2 ^ a * 2 ^ (52 + b - a) = 2 ^ 51 * 2 ^ (Z.succ b))%Z).
    { rewrite <- !Z.pow_add_r by (subst e0; lia). f_equal. lia. }
    assert (H3 : (0 < 2 ^ (52 + b - a))%Z)
      by (apply Z.pow_pos_nonneg; subst e0; lia).
    nia.
  - assert (H0 : (0 < 2 ^ e0)%Z) by (apply Z.pow_pos_nonneg; lia).
    split; [lia|].
    assert (H1 : (2 ^ 51 * (2 ^ (Z.succ b) * 2 ^ e0) = 2 ^ a)%Z).
    { rewrite <- !Z.pow_add_r by lia. f_equal. subst e0. lia. }
    nia.
Qed.

(** What [nearest] returns: the mantissa is the rounding of a fraction
    [s / t] of at least 2^52 with [n / d = (s / t) * 2^e]. *)
Lemma nearest_spec (n d : positive) :
  exists s t : Z,
    nearest n d = (rne s t, snd (nearest n d)) /\
    (0 < t)%Z /\ (2 ^ 52 * t <= s)%Z /\
    ((snd (nearest n d) <= 0)%Z ->
     (s * Zpos d = Zpos n * 2 ^ (- snd (nearest n d)) * t)%Z) /\
    ((0 <= snd (nearest n d))%Z ->
     (s * Zpos d * 2 ^ snd (nearest n d) = Zpos n * t)%Z).
Proof.
  pose proof (nearest_scaled n d) as H. cbv zeta in H.
  unfold nearest.
  set (e0 := (Z.log2 (Zpos n) - Z.log2 (Zpos d) - 52)%Z) in *.
  cbv zeta.
  destruct (Z.leb_spec e0 0) as [He|He].
  - destruct H as [Ht Hs].
    destruct (Z.ltb_spec (Zpos n * 2 ^ (- e0)) (2 ^ 52 * Zpos d)) as [Hlt|Hge];
      cbn [snd].
    + exists (2 * (Zpos n * 2 ^ (- e0)))%Z, (Zpos d).
      split; [reflexivity|]. split; [lia|]. split; [lia|]. split; [|lia].
      intros _. replace (- (e0 - 1))%Z with (1 + - e0)%Z by lia.
      rewrite Z.pow_add_r by lia. change (2 ^ 1)%Z with 2%Z. ring.
    + exists (Zpos n * 2 ^ (- e0))%Z, (Zpos d).
      split; [reflexivity|]. split; [lia|]. split; [lia|]. split.
      * intros _. ring.
      * intro H0. assert (e0 = 0)%Z by lia. subst e0.
        replace (Z.log2 (Zpos n) - Z.log2 (Zpos d) - 52)%Z with 0%Z by lia.
        change (- 0)%Z with 0%Z. change (2 ^ 0)%Z with 1%Z. ring.
  - destruct H as [Ht Hs].
    destruct (Z.ltb_spec (Zpos n) (2 ^ 52 * (Zpos d * 2 ^ e0))) as [Hlt|Hge];
      cbn [snd].
    + exists (2 * Zpos n)%Z, (Zpos d * 2 ^ e0)%Z.
      split; [reflexivity|]. split; [lia|]. split; [lia|]. split.
      * intro H0. assert (E : e0 = 1%Z) by lia. rewrite E.
        change (- (1 - 1))%Z with 0%Z. change (2 ^ 0)%Z with 1%Z.
        change (2 ^ 1)%Z with 2%Z. ring.
      * intros _.
        replace (2 ^ e0)%Z with (2 ^ (e0 - 1) * 2)%Z.
        { ring. }
        replace e0 with ((e0 - 1) + 1)%Z at 2 by lia.
        rewrite Z.pow_add_r by lia. reflexivity.
    + exists (Zpos n), (Zpos d * 2 ^ e0)%Z.
      split; [reflexivity|]. split; [lia|]. split; [lia|]. split; [lia|].
      intros _. ring.
Qed.

(** The mantissa that [nearest] returns is positive. *)
Lemma nearest_mantissa_pos (n d : positive) : (1 <= fst (nearest n d))%Z.
Proof.
  destruct (nearest_spec n d) as (s & t & E & Ht & Hs & _).
  rewrite E. cbn [fst].
  pose proof (rne_ge_floor s t).
  assert (2 ^ 52 <= s / t)%Z by (apply Z.div_le_lower_bound; lia).
  lia.
Qed.

Lemma b64_value_pos (m e : Z) : (1 <= m)%Z -> 0 < b64_value (m, e).
Proof.
  intro Hm. unfold b64_value. destruct (Z.leb_spec 0 e) as [He|He].
  - assert (0 < 2 ^ e)%Z by (apply Z.pow_pos_nonneg; lia).
    unfold Qlt, inject_Z. simpl. nia.
  - unfold Qlt. simpl. lia.
Qed.

(** Rounding keeps a positive quotient positive (the exponent has no lower
    bound in the model). *)
Lemma b64_round_pos (q : Q) : 0 < q -> 0 < b64_round q.
Proof.
  intro Hq. unfold b64_round. destruct q as [[|n|n] d]; cbn [Qnum Qden].
  - discriminate Hq.
  - pose proof (nearest_mantissa_pos n d) as Hm.
    destruct (nearest n d) as [m e]. now apply b64_value_pos.
  - discriminate Hq.
Qed.

Lemma b64_round_zero (q : Q) : q == 0 -> b64_round q = 0.
Proof.
  intro Hq. unfold b64_round. destruct q as [[|n|n] d]; cbn [Qnum Qden].
  - reflexivity.
  - discriminate Hq.
  - discriminate Hq.
Qed.

Lemma b64_round_nonneg (q : Q) : 0 <= q -> 0 <= b64_round q.
Proof.
  intro Hq. destruct (Qlt_le_dec 0 q) as [Hp|Hn].
  - apply Qlt_le_weak. now apply b64_round_pos.
  - rewrite b64_round_zero; [apply Qle_refl|]. now apply Qle_antisym.
Qed.

(** Rounding is monotone at the integers that binary64 holds exactly: a
    quotient at or above such an integer is not rounded below it. *)
Lemma b64_round_ge_int (q : Q) (L : Z) :
  (0 <= L <= 2 ^ 53)%Z -> inject_Z L <= q -> inject_Z L <= b64_round q.
Proof.
  intros HL Hq. unfold b64_round.
  destruct q as [[|n|n] d]; cbn [Qnum Qden].
  - unfold Qle, inject_Z in *. cbn [Qnum Qden] in *. lia.
  - destruct (nearest_spec n d) as (s & t & E & Ht & Hs & Hneg & Hpos).
    rewrite E. set (e := snd (nearest n d)) in *.
    unfold Qle, inject_Z in Hq. cbn [Qnum Qden] in Hq.
    rewrite Z.mul_1_r in Hq.
    pose proof (rne_ge_floor s t) as Hfl.
    unfold b64_value. destruct (Z.leb_spec 0 e) as [He|He].
    + unfold Qle, inject_Z. cbn [Qnum Qden]. rewrite !Z.mul_1_r.
      specialize (Hpos He).
      assert (H52 : (2 ^ 52 <= s / t)%Z)
        by (apply Z.div_le_lower_bound; lia).
      assert (He' : (e = 0 \/ 1 <= e)%Z) by lia.
      destruct He' as [->|He1].
      * change (2 ^ 0)%Z with 1%Z in *. rewrite Z.mul_1_r in *.
        assert (L <= s / t)%Z; [|lia].
        apply Z.div_le_lower_bound; [lia|]. nia.
      * assert (2 ^ 1 <= 2 ^ e)%Z by (apply Z.pow_le_mono_r; lia).
        change (2 ^ 1)%Z with 2%Z in *.
        change (2 ^ 53)%Z with (2 ^ 52 * 2)%Z in HL. nia.
    + assert (Hp : (0 < 2 ^ (- e))%Z) by (apply Z.pow_pos_nonneg; lia).
      unfold Qle, inject_Z. cbn [Qnum Qden].
      rewrite Z.mul_1_r, Z2Pos.id by lia.
      specialize (Hneg ltac:(lia)).
      assert (L * 2 ^ (- e) <= s / t)%Z; [|lia].
      apply Z.div_le_lower_bound; [lia|]. nia.
  - unfold Qle, inject_Z in Hq. cbn [Qnum Qden] in Hq. lia.
Qed.

(** A quotient at or below an integer under 2^53 is not rounded above
    it. *)
Lemma b64_round_le_int (q : Q) (U : Z) :
  (U < 2 ^ 53)%Z -> 0 <= q -> q <= inject_Z U -> b64_round q <= inject_Z U.
Proof.
  intros HU Hq0 Hq. unfold b64_round.
  destruct q as [[|n|n] d]; cbn [Qnum Qden].
  - unfold Qle, inject_Z in *. cbn [Qnum Qden] in *. lia.
  - destruct (nearest_spec n d) as (s & t & E & Ht & Hs & Hneg & Hpos).
    rewrite E. set (e := snd (nearest n d)) in *.
    unfold Qle, inject_Z in Hq. cbn [Qnum Qden] in Hq.
    rewrite Z.mul_1_r in Hq.
    unfold b64_value. destruct (Z.leb_spec 0 e) as [He|He].
    + unfold Qle, inject_Z. cbn [Qnum Qden]. rewrite !Z.mul_1_r.
      specialize (Hpos He).
      assert (He' : (e = 0 \/ 1 <= e)%Z) by lia.
      destruct He' as [->|He1].
      * change (2 ^ 0)%Z with 1%Z in *. rewrite Z.mul_1_r in *.
        apply rne_le_bound; [lia|]. nia.
      * exfalso.
        assert (2 ^ 1 <= 2 ^ e)%Z by (apply Z.pow_le_mono_r; lia).
        change (2 ^ 1)%Z with 2%Z in *.
        change (2 ^ 53)%Z with (2 ^ 52 * 2)%Z in HU.
        assert (s * 2 ^ e <= U * t)%Z by nia.
        nia.
    + assert (Hp : (0 < 2 ^ (- e))%Z) by (apply Z.pow_pos_nonneg; lia).
      unfold Qle, inject_Z. cbn [Qnum Qden].
      rewrite Z.mul_1_r, Z2Pos.id by lia.
      specialize (Hneg ltac:(lia)).
      apply rne_le_bound; [lia|]. nia.
  - unfold Qle. cbn [Qnum Qden]. 
    pose proof (nearest_mantissa_pos n d) as Hm.
    destruct (nearest n d) as [m e]. cbn [fst] in Hm.
    pose proof (b64_value_pos m e Hm) as Hv.
    unfold Qle in Hq0. cbn [Qnum Qden] in Hq0. lia.
Qed.


(** For an image with positive sides neither division of [generate]
    fails, and the number of rows is not negative. *)
Lemma grid_shape_pos (W H : Z) :
  (0 < W)%Z -> (0 < H)%Z ->
  let num_x := py_int (b64_round (inject_Z W / 4)) in
  let num_y :=
    py_int (b64_round (inject_Z num_x / b64_round (inject_Z W / inject_Z H)))
  in
  grid_shape W H = Ok (num_x, num_y) /\ (0 <= num_x)%Z /\ (0 <= num_y)%Z.
Proof.
  intros HW HH num_x num_y.
  pose proof (b64_round_pos _ (ratio_pos W H HW HH)) as Hr.
  assert (Hx : (0 <= num_x)%Z).
  { apply py_int_nonneg, b64_round_nonneg, Qlt_le_weak.
    apply (ratio_pos W 4); lia. }
  split; [|split; [exact Hx|]].
  - unfold grid_shape, fdiv.
    change (Qeq_bool 4 0) with false. cbn [rbind].
    rewrite (inject_Z_pos_neq H HH). cbn [rbind].
    destruct (Qeq_bool (b64_round (inject_Z W / inject_Z H)) 0) eqn:E.
    + apply Qeq_bool_iff in E. rewrite E in Hr. discriminate Hr.
    + reflexivity.
  - apply py_int_nonneg, b64_round_nonneg.
    apply Qle_shift_div_l; [exact Hr|].
    unfold Qle, Qmult, inject_Z. simpl. lia.
Qed.



Lemma meshgrid_lengths (x y : list Q) :
  List.length (fst (Np.meshgrid_flat x y)) = (List.length y * List.length x)%nat /\
  List.length (snd (Np.meshgrid_flat x y)) = (List.length y * List.length x)%nat.
Proof.
  unfold Np.meshgrid_flat. simpl.
  induction y as [|yj y [IH1 IH2]]; simpl; [now split|].
  rewrite !length_app, length_map, IH1, IH2. now split.
Qed.



End Grid.

(* ===================================================================== *)
(** ** The markers drawn by [_plot] *)
(* ===================================================================== *)

Section Markers.

Variable Rbf : list Q -> list Q -> list Q -> result (Q -> Q -> Q).

Lemma getitem_Ok {A} (l : list A) (idx : nat) (v : A) :
  getitem l idx = Ok v -> nth_error l idx = Some v.
Proof.
  unfold getitem. destruct (nth_error l idx); [intros [= ->]|]; easy.
Qed.

(** A loop that ends normally drew one marker per index, in order. *)
Lemma plot_loop (a : ddict) (key : string) (norm : Q -> result Q) :
  forall idxs tr,
    for_each idxs (plot_point a key norm) = (tr, Ok tt) ->
    Forall2 (marker_at (dd_get "x" a) (dd_get "y" a) (dd_get key a) norm)
            tr idxs.
Proof.
  induction idxs as [|idx idxs IH]; intros tr; simpl.
  - intros [= <-]. constructor.
  - unfold plot_point at 1, to_rgba.
    destruct (getitem (dd_get "x" a) idx) as [x|] eqn:Ex;
      cbn [lift bind]; [|discriminate].
    destruct (getitem (dd_get "y" a) idx) as [y|] eqn:Ey;
      cbn [lift bind]; [|discriminate].
    destruct (getitem (dd_get key a) idx) as [v|] eqn:Ev;
      cbn [lift bind]; [|discriminate].
    destruct (norm v) as [t|] eqn:Et; cbn [lift bind rbind emit app];
      [|discriminate].
    destruct (for_each idxs (plot_point a key norm)) as [tr' r] eqn:El.
    intros [= <- ->].
    constructor; [|now apply IH].
    exists x, y, v, t. auto using getitem_Ok.
Qed.

Lemma markers_of_loop xs ys vs norm (tr : list event) (idxs : list nat) :
  Forall2 (marker_at xs ys vs norm) tr idxs -> markers tr = tr.
Proof.
  induction 1 as [|ev idx tr idxs (x & y & v & t & _ & _ & _ & _ & ->) _ IH].
  - reflexivity.
  - unfold markers in *. simpl. now rewrite IH.
Qed.

Lemma Forall2_seq_nth {A} (R : A -> nat -> Prop) :
  forall n s (l : list A),
    Forall2 R l (seq s n) ->
    List.length l = n /\
    forall i, (i < n)%nat ->
      exists ev, nth_error l i = Some ev /\ R ev (s + i)%nat.
Proof.
  induction n as [|n IH]; intros s l HF; simpl in HF; inversion HF; subst.
  - split; [reflexivity|]. intros i Hi. lia.
  - destruct (IH _ _ H3) as [Hlen Hnth].
    split; [simpl; now rewrite Hlen|].
    intros [|i] Hi.
    + exists x. split; [reflexivity|]. now rewrite Nat.add_0_r.
    + destruct (Hnth i) as (ev & Hev & HR); [lia|].
      exists ev. split; [exact Hev|]. now rewrite Nat.add_succ_r.
Qed.

(** A call of [_plot] that returns drew its markers in the loop over
    [range(0, len(a['x']))], with the norm built from [a[key]]. *)
Lemma plot_returns (self : HeatMapGenerator) (a : ddict)
    (key title : string) (gx gy : list Q) (num_x num_y : Z)
    (tr : list event) :
  _plot Rbf self a key title gx gy num_x num_y = (tr, Ok tt) ->
  exists norm,
    plot_norm (dd_get key a) = Ok norm /\
    In (PpSavefig (key ++ "_" ++ _title self ++ ".png")%string) tr /\
    Forall2 (marker_at (dd_get "x" a) (dd_get "y" a) (dd_get key a) norm)
            (markers tr) (seq 0 (List.length (dd_get "x" a))).
Proof.
  unfold _plot.
  destruct (Rbf (dd_get "x" a) (dd_get "y" a) (dd_get key a)) as [rbf|];
    [|cbn; discriminate].
  cbn [lift emit bind app].
  destruct (Np.reshape _ num_y num_x) as [z|]; [|cbn; discriminate].
  destruct (plot_norm (dd_get key a)) as [norm|]; [|cbn; discriminate].
  destruct (for_each _ (plot_point a key norm)) as [loop [[]|]] eqn:El;
    [|cbn; discriminate].
  cbn. intros [= <-].
  exists norm. split; [reflexivity|].
  apply plot_loop in El.
  split.
  - do 6 right. apply in_or_app. right. now left.
  - unfold markers. cbn. rewrite filter_app. cbn. rewrite app_nil_r.
    fold (markers loop). now rewrite (markers_of_loop _ _ _ _ _ _ El).
Qed.

End Markers.

(** An exception of the fit leaves [_plot] as it is, after the title and
    before anything is drawn or saved. *)
Lemma plot_fit_error_surfaces
    (Rbf : list Q -> list Q -> list Q -> result (Q -> Q -> Q))
    (self : HeatMapGenerator) (a : ddict) (key title : string)
    (gx gy : list Q) (num_x num_y : Z) (e : exn) :
  Rbf (dd_get "x" a) (dd_get "y" a) (dd_get key a) = Raise e ->
  _plot Rbf self a key title gx gy num_x num_y =
  ([RcFigsize (inject_Z (_image_width self) / 300)
              (inject_Z (_image_height self) / 300);
    PpTitle title], Raise e).
Proof. intro E. unfold _plot. rewrite E. reflexivity. Qed.

(** [survey] is the generator that the constructor returns. *)
Lemma survey_from_init (data : list Row) (ignore : list string) :
  __init__ (blank 9 8) data "plan.png" "home" ignore = Ok (survey data ignore).
Proof. reflexivity. Qed.

(* ===================================================================== *)
(** ** The padded sequences of a non-empty survey *)
(* ===================================================================== *)

Lemma aggregate_nonempty (self : HeatMapGenerator) :
  _data self <> [] ->
  exists m1 m2 m3 m4 m5 m6,
    py_min (map iwconfig_level (_data self)) = Ok m1 /\
    py_min (map iwconfig_quality (_data self)) = Ok m2 /\
    py_min (map tcp_sent_Mbps (_data self)) = Ok m3 /\
    py_min (map tcp_reverse_received_Mbps (_data self)) = Ok m4 /\
    py_min (map udp_Mbps (_data self)) = Ok m5 /\
    py_min (map udp_jitter_ms (_data self)) = Ok m6 /\
    aggregate self =
    Ok (full_dict
          (map row_x (_data self)
           ++ [0; 0; inject_Z (_image_width self);
               inject_Z (_image_width self)])
          (map row_y (_data self)
           ++ [0; inject_Z (_image_height self); 0;
               inject_Z (_image_height self)])
          (map iwconfig_level (_data self) ++ [m1; m1; m1; m1])
          (map iwconfig_quality (_data self) ++ [m2; m2; m2; m2])
          (map tcp_sent_Mbps (_data self) ++ [m3; m3; m3; m3])
          (map tcp_reverse_received_Mbps (_data self) ++ [m4; m4; m4; m4])
          (map udp_Mbps (_data self) ++ [m5; m5; m5; m5])
          (map udp_jitter_ms (_data self) ++ [m6; m6; m6; m6])).
Proof.
  intro Hne. unfold aggregate. rewrite (collect_nonempty _ Hne).
  assert (Hmap : forall f : Row -> Q, map f (_data self) <> []).
  { intros f. destruct (_data self); [congruence|discriminate]. }
  destruct (py_min_total _ (Hmap iwconfig_level)) as [m1 H1].
  destruct (py_min_total _ (Hmap iwconfig_quality)) as [m2 H2].
  destruct (py_min_total _ (Hmap tcp_sent_Mbps)) as [m3 H3].
  destruct (py_min_total _ (Hmap tcp_reverse_received_Mbps)) as [m4 H4].
  destruct (py_min_total _ (Hmap udp_Mbps)) as [m5 H5].
  destruct (py_min_total _ (Hmap udp_jitter_ms)) as [m6 H6].
  exists m1, m2, m3, m4, m5, m6.
  repeat (split; [assumption|]).
  now apply pad_full.
Qed.

(** Each metric key of the padded dict holds the real values followed by
    four copies of their minimum. *)
Lemma padded_metric (self : HeatMapGenerator) (a : ddict)
    (key : string) (f : Row -> Q) :
  _data self <> [] -> aggregate self = Ok a -> In (key, f) metric_fields ->
  dd_get "x" a =
    map row_x (_data self)
    ++ [0; 0; inject_Z (_image_width self); inject_Z (_image_width self)] /\
  dd_get "y" a =
    map row_y (_data self)
    ++ [0; inject_Z (_image_height self); 0;
        inject_Z (_image_height self)] /\
  exists m, py_min (map f (_data self)) = Ok m /\
            dd_get key a = map f (_data self) ++ [m; m; m; m].
Proof.
  intros Hne Ha Hin.
  destruct (aggregate_nonempty self Hne)
    as (m1 & m2 & m3 & m4 & m5 & m6 & H1 & H2 & H3 & H4 & H5 & H6 & Hagg).
  rewrite Hagg in Ha. injection Ha as <-.
  split; [reflexivity|]. split; [reflexivity|].
  unfold metric_fields in Hin. simpl in Hin.
  destruct Hin as [E|[E|[E|[E|[E|[E|[]]]]]]]; injection E as <- <-;
    eexists; (split; [eassumption|reflexivity]).
Qed.

(* ===================================================================== *)
(** ** The claims *)
(* ===================================================================== *)

(** C1: for every dataset and whatever the interpolator, [_plot_channels]
    computes the per-frequency mean aggregate (the printed dict maps a key
    to the sum over the count of the quality scores of all non-ignored
    scans filed under that key, and has no other key), prints it and
    raises [NotImplementedError]; [generate] calls it before the plotting
    loop, so a run of [generate] prints the aggregate, ends with that
    error and saves no image. *)
Theorem generate_stops_in_plot_channels
    (Rbf : list Q -> list Q -> list Q -> result (Q -> Q -> Q))
    (self : HeatMapGenerator) :
  exists ch,
    means (bucket (_ignore_ssids self) (_data self)) = Ok ch /\
    (forall f,
       fd_get f ch =
       match observed (_ignore_ssids self) (_data self) f with
       | [] => None
       | qs => Some (py_sum qs / inject_Z (len qs))
       end) /\
    _plot_channels self = ([Print ch], Raise NotImplementedError) /\
    generate Rbf self = ([Print ch], Raise NotImplementedError) /\
    existsb is_savefig (fst (generate Rbf self)) = false.
Proof.
  destruct (plot_channels_run self) as (ch & Hch & Hrun & Hget).
  destruct (aggregate_total self) as (a & Ha).
  assert (Hgen : generate Rbf self = ([Print ch], Raise NotImplementedError)).
  { unfold generate. rewrite Ha. cbn [lift bind]. now rewrite Hrun. }
  exists ch. split; [exact Hch|]. split; [exact Hget|].
  split; [exact Hrun|]. split; [exact Hgen|].
  now rewrite Hgen.
Qed.

(** C2: for a non-empty dataset the aggregation returns the eight
    sequences with exactly four entries appended: the corners (0,0),
    (0,height), (width,0), (width,height) on ['x'] and ['y'], and for each
    metric four copies of the minimum of its real values, although every
    later [min] is taken over a list that already holds padding. *)
Theorem padding_uses_real_minimum (self : HeatMapGenerator) :
  _data self <> [] ->
  exists a,
    aggregate self = Ok a /\
    dd_keys a = ["x"; "y"; "rssi"; "quality"; "tcp_upload_Mbps";
                 "tcp_download_Mbps"; "udp_Mbps"; "jitter"] /\
    dd_get "x" a =
      map row_x (_data self)
      ++ [0; 0; inject_Z (_image_width self);
          inject_Z (_image_width self)] /\
    dd_get "y" a =
      map row_y (_data self)
      ++ [0; inject_Z (_image_height self); 0;
          inject_Z (_image_height self)] /\
    Forall (fun kf : string * (Row -> Q) =>
              exists m,
                In m (map (snd kf) (_data self)) /\
                (forall v, In v (map (snd kf) (_data self)) -> m <= v) /\
                dd_get (fst kf) a = map (snd kf) (_data self) ++ [m; m; m; m])
           metric_fields.
Proof.
  intro Hne.
  destruct (aggregate_nonempty self Hne)
    as (m1 & m2 & m3 & m4 & m5 & m6 & H1 & H2 & H3 & H4 & H5 & H6 & Hagg).
  eexists. split; [exact Hagg|].
  split; [reflexivity|]. split; [reflexivity|]. split; [reflexivity|].
  unfold metric_fields.
  repeat constructor; simpl; eexists;
    (split; [|split; [|reflexivity]]);
    first [ now apply (py_min_spec _ _ H1) | now apply (py_min_spec _ _ H2)
          | now apply (py_min_spec _ _ H3) | now apply (py_min_spec _ _ H4)
          | now apply (py_min_spec _ _ H5) | now apply (py_min_spec _ _ H6) ].
Qed.

Lemma padding_uses_real_minimum_witness :
  exists a,
    aggregate (survey [point_a; point_b] []) = Ok a /\
    dd_get "rssi" a = [-50; -70; -70; -70; -70; -70].
Proof.
  destruct (padding_uses_real_minimum (survey [point_a; point_b] []))
    as (a & Ha & _).
  - simpl. discriminate.
  - exists a. split; [exact Ha|].
    vm_compute in Ha. injection Ha as <-. reflexivity.
Defined.

(** C3 (as the code has it): a call of [_plot] that returns for a metric
    of a non-empty survey drew one marker per entry of the padded
    sequences, that is one per record and one per corner, in order; each
    marker is at its entry's coordinates and is coloured by applying the
    norm of the padded sequence to the entry's own value. *)
Theorem markers_cover_padded_points
    (Rbf : list Q -> list Q -> list Q -> result (Q -> Q -> Q))
    (self : HeatMapGenerator) (a : ddict) (key : string) (f : Row -> Q)
    (title : string) (gx gy : list Q) (num_x num_y : Z) (tr : list event) :
  _data self <> [] ->
  In (key, f) metric_fields ->
  aggregate self = Ok a ->
  _plot Rbf self a key title gx gy num_x num_y = (tr, Ok tt) ->
  exists norm m,
    py_min (map f (_data self)) = Ok m /\
    plot_norm (map f (_data self) ++ [m; m; m; m]) = Ok norm /\
    List.length (markers tr) = (List.length (_data self) + 4)%nat /\
    forall idx, (idx < List.length (_data self) + 4)%nat ->
      exists ev,
        nth_error (markers tr) idx = Some ev /\
        marker_at
          (map row_x (_data self)
           ++ [0; 0; inject_Z (_image_width self);
               inject_Z (_image_width self)])
          (map row_y (_data self)
           ++ [0; inject_Z (_image_height self); 0;
               inject_Z (_image_height self)])
          (map f (_data self) ++ [m; m; m; m])
          norm ev idx.
Proof.
  intros Hne Hin Ha Hrun.
  destruct (padded_metric self a key f Hne Ha Hin) as (Hx & Hy & m & Hm & Hk).
  destruct (plot_returns Rbf self a key title gx gy num_x num_y tr Hrun)
    as (norm & Hnorm & _ & Hall).
  rewrite Hx, Hy, Hk in Hall. rewrite Hk in Hnorm.
  apply Forall2_seq_nth in Hall. destruct Hall as [Hlen Hnth].
  rewrite length_app, length_map in Hlen, Hnth. simpl in Hlen, Hnth.
  exists norm, m. repeat split; try assumption.
Qed.

Lemma markers_cover_padded_points_witness :
  List.length
    (markers (fst (_plot flat_rbf (survey [point_a] [])
                     (full_dict [10; 0; 0; 8; 8] [10; 0; 8; 0; 8]
                        [-50; -50; -50; -50; -50] [60; 60; 60; 60; 60]
                        [5 # 2; 5 # 2; 5 # 2; 5 # 2; 5 # 2]
                        [3; 3; 3; 3; 3] [1; 1; 1; 1; 1]
                        [1 # 10; 1 # 10; 1 # 10; 1 # 10; 1 # 10])
                     "rssi" "home - RSSI (level)"
                     (fst grid8) (snd grid8) 2 2))) = 5%nat.
Proof.
  destruct (markers_cover_padded_points flat_rbf (survey [point_a] [])
              (full_dict [10; 0; 0; 8; 8] [10; 0; 8; 0; 8]
                 [-50; -50; -50; -50; -50] [60; 60; 60; 60; 60]
                 [5 # 2; 5 # 2; 5 # 2; 5 # 2; 5 # 2]
                 [3; 3; 3; 3; 3] [1; 1; 1; 1; 1]
                 [1 # 10; 1 # 10; 1 # 10; 1 # 10; 1 # 10])
              "rssi" iwconfig_level "home - RSSI (level)"
              (fst grid8) (snd grid8) 2 2
              (fst (_plot flat_rbf (survey [point_a] [])
                      (full_dict [10; 0; 0; 8; 8] [10; 0; 8; 0; 8]
                         [-50; -50; -50; -50; -50] [60; 60; 60; 60; 60]
                         [5 # 2; 5 # 2; 5 # 2; 5 # 2; 5 # 2]
                         [3; 3; 3; 3; 3] [1; 1; 1; 1; 1]
                         [1 # 10; 1 # 10; 1 # 10; 1 # 10; 1 # 10])
                      "rssi" "home - RSSI (level)"
                      (fst grid8) (snd grid8) 2 2)))
    as (norm & m & _ & _ & Hlen & _).
  - simpl. discriminate.
  - left. reflexivity.
  - vm_compute. reflexivity.
  - vm_compute. reflexivity.
  - exact Hlen.
Defined.

(** C3, the claim as written fails: for a survey of one record, whatever
    the interpolator, a call of [_plot] that returns has drawn five
    markers, four of them at the padded corners; with the interpolator
    [flat_rbf] the call does return. *)
Lemma markers_include_corner_padding :
  (exists a tr,
     aggregate (survey [point_a] []) = Ok a /\
     _plot flat_rbf (survey [point_a] []) a "rssi" "home - RSSI (level)"
           (fst grid8) (snd grid8) 2 2 = (tr, Ok tt) /\
     In (PpPlot 0 0 (RdYlBu_r 0)) tr /\
     List.length (markers tr) = 5%nat) /\
  ~ (exists Rbf a tr,
       aggregate (survey [point_a] []) = Ok a /\
       _plot Rbf (survey [point_a] []) a "rssi" "home - RSSI (level)"
             (fst grid8) (snd grid8) 2 2 = (tr, Ok tt) /\
       List.length (markers tr)
       = List.length (_data (survey [point_a] []))).
Proof.
  split.
  - eexists. eexists. split; [vm_compute; reflexivity|].
    split; [vm_compute; reflexivity|].
    split; [|reflexivity].
    do 7 right. left. reflexivity.
  - intros (Rbf & a & tr & Ha & Hrun & Hlen).
    vm_compute in Ha. injection Ha as <-.
    apply plot_returns in Hrun. destruct Hrun as (norm & _ & _ & Hall).
    apply Forall2_seq_nth in Hall. destruct Hall as [Hl _].
    rewrite Hl in Hlen. discriminate Hlen.
Qed.

(** C4, the code at a 100 by 100 image: the constructor takes the width
    from the number of columns and the height from the number of rows
    minus one, so the height is 99; the corner padding and the grid are
    computed from that value. *)
Theorem init_height_is_rows_minus_one :
  exists g,
    __init__ (blank 100 100) [] "plan.png" "home" [] = Ok g /\
    len (_layout g) = 100%Z /\
    _image_width g = 100%Z /\
    _image_height g = 99%Z /\
    aggregate g = Ok [("x", [0; 0; 100; 100]); ("y", [0; 99; 0; 99])] /\
    grid_shape (_image_width g) (_image_height g) = Ok (25, 24)%Z.
Proof. eexists. repeat split. Qed.


(** C5 (as the code has it): when the minimum of the value sequence
    equals its maximum the norm of [_plot] raises nothing and maps every
    value to 0. *)
Theorem normalize_zero_variance_is_zero (values : list Q) (lo hi : Q) :
  py_min values = Ok lo -> py_max values = Ok hi -> lo == hi ->
  exists norm,
    plot_norm values = Ok norm /\
    forall v, norm v = Ok 0 /\ to_rgba norm v = Ok (RdYlBu_r 0).
Proof.
  intros Hlo Hhi E. exists (Normalize lo hi true).
  split; [now apply plot_norm_bounds|].
  intros v. unfold to_rgba.
  rewrite (Normalize_degenerate lo hi v E). split; reflexivity.
Qed.

Lemma normalize_zero_variance_is_zero_witness :
  exists norm, plot_norm [3; 3] = Ok norm /\ norm 3 = Ok 0.
Proof.
  destruct (normalize_zero_variance_is_zero [3; 3] 3 3) as (norm & Hn & Hv).
  - reflexivity.
  - reflexivity.
  - reflexivity.
  - exists norm. split; [exact Hn|]. apply Hv.
Defined.

(** C5, the claim as written fails: for the sequence [3, 3] the norm
    maps 3 to 0, which is not 0.5. *)
Lemma zero_variance_is_not_midpoint :
  exists norm,
    plot_norm [3; 3] = Ok norm /\ norm 3 = Ok 0 /\ ~ 0 == 1 # 2.
Proof.
  eexists. split; [reflexivity|]. split; [reflexivity|].
  intro E. discriminate E.
Qed.

(** C6 (as the code has it): with no measurement point the aggregation
    raises nothing: no metric key exists, no minimum is taken, and the
    result holds the four corner coordinates only. *)
Theorem aggregate_empty_dataset (self : HeatMapGenerator) :
  _data self = [] ->
  aggregate self =
  Ok [("x", [0; 0; inject_Z (_image_width self);
             inject_Z (_image_width self)]);
      ("y", [0; inject_Z (_image_height self); 0;
             inject_Z (_image_height self)])].
Proof.
  intro E. unfold aggregate. rewrite E. apply pad_empty.
Qed.

Lemma aggregate_empty_dataset_witness :
  aggregate (survey [] []) = Ok [("x", [0; 0; 8; 8]); ("y", [0; 8; 0; 8])].
Proof.
  apply (aggregate_empty_dataset (survey [] [])). reflexivity.
Defined.

(** C6, the claim as written fails: the aggregation of the empty survey
    returns a dict and raises no error. *)
Lemma aggregate_empty_raises_nothing :
  aggregate (survey [] []) = Ok [("x", [0; 0; 8; 8]); ("y", [0; 8; 0; 8])] /\
  ~ (exists e, aggregate (survey [] []) = Raise e).
Proof.
  split; [reflexivity|]. intros (e & He). discriminate He.
Qed.



(** The rounding of the two divisions shows in the number of rows: for an
    800 by 332 image [W / H] rounds up, [200 / (W / H)] falls just below
    83, and the grid has 82 rows, one fewer than the exact quotient
    [200 * 332 / 800 = 83]. *)
Lemma grid_rows_follow_binary64 :
  grid_shape 800 332 = Ok (200, 82)%Z /\
  py_int (200 / (800 / 332)) = 83%Z.
Proof. split; reflexivity. Qed.


(** C8: [_plot_channels] prints a dict that maps a frequency key to the
    arithmetic mean (sum over count) of the quality scores of all scans
    filed under that key, over all records in order, leaving out every
    scan whose ESSID is ignored; a key with no such scan is absent.  Two
    scans at 2412000000 Hz with qualities 50 and 70 give 60 under key
    2412; ignoring the ESSID of one of them gives 70, respectively 50. *)
Theorem channel_aggregate_is_mean :
  (forall self : HeatMapGenerator,
     exists ch,
       _plot_channels self = ([Print ch], Raise NotImplementedError) /\
       forall f,
         fd_get f ch =
         match observed (_ignore_ssids self) (_data self) f with
         | [] => None
         | qs => Some (py_sum qs / inject_Z (len qs))
         end) /\
  (exists ch m,
     _plot_channels (survey [point_a; point_b] [])
     = ([Print ch], Raise NotImplementedError) /\
     fd_get 2412 ch = Some m /\ m == 60) /\
  (exists ch m,
     _plot_channels (survey [point_a; point_b] ["alpha"])
     = ([Print ch], Raise NotImplementedError) /\
     fd_get 2412 ch = Some m /\ m == 70) /\
  (exists ch m,
     _plot_channels (survey [point_a; point_b] ["beta"])
     = ([Print ch], Raise NotImplementedError) /\
     fd_get 2412 ch = Some m /\ m == 50).
Proof.
  split; [|split; [|split]].
  - intros self. destruct (plot_channels_run self) as (ch & _ & Hrun & Hget).
    exists ch. now split.
  - eexists. eexists. split; [vm_compute; reflexivity|].
    split; reflexivity.
  - eexists. eexists. split; [vm_compute; reflexivity|].
    split; reflexivity.
  - eexists. eexists. split; [vm_compute; reflexivity|].
    split; reflexivity.
Qed.

(** C9: with distinct minimum [lo] and maximum [hi] of the value sequence
    that [_plot] normalises with (the padded sequence [a[key]]), the norm
    raises nothing and is the linear scaling [(v - lo) / (hi - lo)] on
    [lo, hi]; it maps [lo] and everything below to 0, [hi] and everything
    above to 1, and every value into [0, 1]. *)
Theorem normalize_min_max_clip (values : list Q) (lo hi : Q) :
  py_min values = Ok lo -> py_max values = Ok hi -> ~ lo == hi ->
  exists norm,
    plot_norm values = Ok norm /\
    (exists t, norm lo = Ok t /\ t == 0) /\
    (exists t, norm hi = Ok t /\ t == 1) /\
    forall v, exists t,
      norm v = Ok t /\
      0 <= t <= 1 /\
      (lo <= v <= hi -> t == (v - lo) / (hi - lo)) /\
      (v <= lo -> t == 0) /\
      (hi <= v -> t == 1).
Proof.
  intros Hlo Hhi NE.
  pose proof (min_le_max values lo hi Hlo Hhi) as Hle.
  assert (Hd : ~ hi - lo == 0) by lra.
  assert (Hbelow : forall v, v <= lo ->
            (Np.clip v lo hi - lo) / (hi - lo) == 0).
  { intros v Hv. rewrite (clip_below values lo hi Hlo Hhi v Hv).
    field. exact Hd. }
  assert (Habove : forall v, hi <= v ->
            (Np.clip v lo hi - lo) / (hi - lo) == 1).
  { intros v Hv. rewrite (clip_above values lo hi Hlo Hhi v Hv).
    field. exact Hd. }
  exists (Normalize lo hi true).
  split; [now apply (plot_norm_bounds values)|].
  split; [|split].
  - eexists. split; [apply (Normalize_regular values lo hi Hlo Hhi _ NE)|].
    apply Hbelow. apply Qle_refl.
  - eexists. split; [apply (Normalize_regular values lo hi Hlo Hhi _ NE)|].
    apply Habove. apply Qle_refl.
  - intros v. eexists.
    split; [apply (Normalize_regular values lo hi Hlo Hhi _ NE)|].
    split; [|split; [|split]].
    + apply (scaled_in_unit values lo hi Hlo Hhi _ NE).
      apply (clip_between values lo hi Hlo Hhi).
    + intro Hv. now rewrite (clip_inside lo hi v Hv).
    + apply Hbelow.
    + apply Habove.
Qed.

Lemma normalize_min_max_clip_witness :
  exists norm,
    plot_norm [1; 3; 2] = Ok norm /\
    (exists t, norm 1 = Ok t /\ t == 0) /\
    (exists t, norm 3 = Ok t /\ t == 1).
Proof.
  destruct (normalize_min_max_clip [1; 3; 2] 1 3)
    as (norm & Hn & H0 & H1 & _).
  - reflexivity.
  - reflexivity.
  - intro E. discriminate E.
  - exists norm. repeat split; assumption.
Defined.

(* ===================================================================== *)
(** ** Further properties: the aggregation *)
(* ===================================================================== *)

(** X2: Every sequence of the aggregated dict has one entry per record plus
    four: the coordinates and all metrics stay aligned index for index,
    for the empty dataset too (where only ['x'] and ['y'] exist). *)
Theorem aggregate_sequences_aligned (self : HeatMapGenerator) (a : ddict) :
  aggregate self = Ok a ->
  Forall (fun kv => List.length (snd kv)
                    = (List.length (_data self) + 4)%nat) a.
Proof.
  intro Ha. destruct (_data self) as [|r data] eqn:E.
  - unfold aggregate in Ha. rewrite E, pad_empty in Ha.
    injection Ha as <-. repeat constructor.
  - destruct (aggregate_nonempty self) as
      (m1 & m2 & m3 & m4 & m5 & m6 & _ & _ & _ & _ & _ & _ & Hagg);
      [congruence|].
    rewrite Hagg in Ha. injection Ha as <-. rewrite E.
    unfold full_dict.
    repeat constructor; cbn [snd]; now rewrite length_app, length_map.
Qed.

Lemma aggregate_sequences_aligned_witness :
  Forall (fun kv => List.length (snd kv) = 6%nat)
         (full_dict [10; 20; 0; 0; 8; 8] [10; 30; 0; 8; 0; 8]
            [-50; -70; -70; -70; -70; -70] [60; 40; 40; 40; 40; 40]
            [5 # 2; 7 # 2; 5 # 2; 5 # 2; 5 # 2; 5 # 2]
            [3; 2; 2; 2; 2; 2] [1; 1; 1; 1; 1; 1]
            [1 # 10; 1 # 10; 1 # 10; 1 # 10; 1 # 10; 1 # 10]).
Proof.
  apply (aggregate_sequences_aligned (survey [point_a; point_b] [])).
  vm_compute. reflexivity.
Defined.

(* ===================================================================== *)
(** ** Further properties: the grid *)
(* ===================================================================== *)

(** X3: For non-negative sides the two divisions of the grid fail exactly when
    a side is 0, with [ZeroDivisionError]: a height of 0 makes [W / H]
    fail, a width of 0 makes the quotient by [W / H] fail. *)
Theorem grid_shape_fails_on_zero_side (W H : Z) :
  (0 <= W)%Z -> (0 <= H)%Z ->
  (grid_shape W H = Raise ZeroDivisionError <-> (W = 0 \/ H = 0)%Z) /\
  ((exists s, grid_shape W H = Ok s) <-> (0 < W /\ 0 < H)%Z).
Proof.
  intros HW HH.
  assert (Hz : forall n, (inject_Z n == 0) <-> n = 0%Z).
  { intros n. unfold Qeq, inject_Z. simpl. lia. }
  assert (Cases : (W = 0 \/ H = 0)%Z \/ (0 < W /\ 0 < H)%Z) by lia.
  destruct Cases as [Hzero|[HWp HHp]].
  - assert (Hr : grid_shape W H = Raise ZeroDivisionError).
    { unfold grid_shape, fdiv. change (Qeq_bool 4 0) with false.
      cbn [rbind].
      destruct (Qeq_bool (inject_Z H) 0) eqn:EH; [reflexivity|].
      cbn [rbind].
      destruct Hzero as [->| ->].
      - rewrite (b64_round_zero (inject_Z 0 / inject_Z H))
          by (unfold Qdiv; apply Qmult_0_l).
        reflexivity.
      - exfalso. apply Qeq_bool_neq in EH. apply EH. reflexivity. }
    split; split.
    + intros _. exact Hzero.
    + intros _. exact Hr.
    + intros (s & Hs). rewrite Hr in Hs. discriminate.
    + intros [? ?]. lia.
  - destruct (grid_shape_pos W H HWp HHp) as [Hs _].
    split; split.
    + rewrite Hs. discriminate.
    + intros [?|?]; lia.
    + intros _. now split.
    + intros _. eexists. exact Hs.
Qed.

Lemma grid_shape_fails_on_zero_side_witness :
  grid_shape 8 0 = Raise ZeroDivisionError <-> (8 = 0 \/ 0 = 0)%Z.
Proof.
  apply (grid_shape_fails_on_zero_side 8 0); lia.
Defined.

Section FieldLayout.

Lemma combine_app_same {A B} (l1 : list A) (l1' : list B) l2 l2' :
  List.length l1 = List.length l1' ->
  combine (l1 ++ l2) (l1' ++ l2') = combine l1 l1' ++ combine l2 l2'.
Proof.
  revert l1'. induction l1 as [|a l1 IH]; intros [|b l1'] Hl;
    simpl in *; try discriminate; [reflexivity|].
  f_equal. apply IH. lia.
Qed.

Lemma combine_const_r {A B} (x : list A) (b : B) :
  combine x (map (fun _ => b) x) = map (fun xi => (xi, b)) x.
Proof. induction x as [|a x IH]; simpl; [reflexivity|now rewrite IH]. Qed.

(** The flattened mesh pairs every row coordinate with every column
    coordinate, row by row. *)
Lemma meshgrid_points (x y : list Q) :
  combine (fst (Np.meshgrid_flat x y)) (snd (Np.meshgrid_flat x y)) =
  flat_map (fun yj => map (fun xi => (xi, yj)) x) y.
Proof.
  unfold Np.meshgrid_flat. simpl.
  induction y as [|yj y IH]; simpl; [reflexivity|].
  rewrite combine_app_same by now rewrite length_map.
  now rewrite combine_const_r, IH.
Qed.

Lemma chunks_rows {A} (cols : nat) (rows : list (list A)) :
  Forall (fun row => List.length row = cols) rows ->
  Np.chunks (List.length rows) cols (List.concat rows) = rows.
Proof.
  induction 1 as [|row rows Hrow _ IH]; simpl; [reflexivity|].
  rewrite firstn_app, skipn_app, Hrow, Nat.sub_diag.
  rewrite firstn_all2 by lia. rewrite skipn_all2 by lia.
  simpl. rewrite app_nil_r. now rewrite IH.
Qed.

Lemma eval_points (rbf : Q -> Q -> Q) (x y : list Q) :
  map (fun p : Q * Q => rbf (fst p) (snd p))
      (flat_map (fun yj => map (fun xi => (xi, yj)) x) y)
  = List.concat (map (fun yj => map (fun xi => rbf xi yj) x) y).
Proof.
  induction y as [|yj y IH]; simpl; [reflexivity|].
  rewrite map_app, map_map. simpl. now rewrite IH.
Qed.

(** Meshgrid, flatten, evaluation and reshape compose to the table of the
    interpolator over the two axes. *)
Lemma reshape_meshgrid (rbf : Q -> Q -> Q) (x y : list Q) :
  Np.reshape (map (fun p => rbf (fst p) (snd p))
                  (combine (fst (Np.meshgrid_flat x y))
                           (snd (Np.meshgrid_flat x y))))
             (len y) (len x)
  = Ok (map (fun yj => map (fun xi => rbf xi yj) x) y).
Proof.
  destruct (meshgrid_lengths x y) as [H1 H2].
  unfold Np.reshape, len.
  destruct ((Z.of_nat (List.length y) <? 0)
            || (Z.of_nat (List.length x) <? 0))%Z eqn:E; [lia|].
  rewrite length_map, length_combine, H1, H2, Nat.min_id.
  rewrite Nat2Z.inj_mul, Z.eqb_refl, !Nat2Z.id.
  f_equal. rewrite meshgrid_points.
  rewrite eval_points.
  rewrite <- (length_map (fun yj => map (fun xi => rbf xi yj) x) y) at 1.
  apply chunks_rows.
  apply Forall_forall. intros row Hrow.
  apply in_map_iff in Hrow. destruct Hrow as (yj & <- & _).
  apply length_map.
Qed.

(** X4: Row [i], column [j] of the field that [_plot] renders is the value of
    the interpolator at column coordinate [x[j]] and row coordinate
    [y[i]]: the reshape never fails on the grid of [generate], the field
    has one row per [y] sample, and its rows follow [y]. *)
Theorem field_follows_axes (rbf : Q -> Q -> Q) (x y : list Q) :
  exists z,
    Np.reshape (map (fun p => rbf (fst p) (snd p))
                    (combine (fst (Np.meshgrid_flat x y))
                             (snd (Np.meshgrid_flat x y))))
               (len y) (len x) = Ok z /\
    List.length z = List.length y /\
    forall i j yi xj,
      nth_error y i = Some yi -> nth_error x j = Some xj ->
      exists row,
        nth_error z i = Some row /\
        List.length row = List.length x /\
        nth_error row j = Some (rbf xj yi).
Proof.
  eexists. split; [apply reshape_meshgrid|].
  split; [apply length_map|].
  intros i j yi xj Hy Hx.
  exists (map (fun xi => rbf xi yi) x).
  split; [|split].
  - now rewrite nth_error_map, Hy.
  - apply length_map.
  - now rewrite nth_error_map, Hx.
Qed.

End FieldLayout.

(* ===================================================================== *)
(** ** Further properties: the colour scale *)
(* ===================================================================== *)

Section ColourScale.

Lemma plot_norm_inv (values : list Q) (norm : Q -> result Q) :
  plot_norm values = Ok norm ->
  exists lo hi,
    py_min values = Ok lo /\ py_max values = Ok hi /\
    norm = Normalize lo hi true.
Proof.
  unfold plot_norm. destruct (py_min values) as [lo|]; [|discriminate].
  destruct (py_max values) as [hi|]; [|discriminate].
  cbn. intros [= <-]. now exists lo, hi.
Qed.

(** Built from the minimum and the maximum of one sequence, [Normalize]
    raises for no value and stays in [0, 1]. *)
Lemma Normalize_total (values : list Q) (lo hi : Q) :
  py_min values = Ok lo -> py_max values = Ok hi ->
  forall v, exists t, Normalize lo hi true v = Ok t /\ 0 <= t <= 1.
Proof.
  intros Hlo Hhi v. destruct (Qeq_bool lo hi) eqn:E.
  - apply Qeq_bool_iff in E. exists 0.
    split; [now apply Normalize_degenerate|]. split; discriminate.
  - assert (NE : ~ lo == hi) by now apply Qeq_bool_neq.
    eexists. split; [apply (Normalize_regular values lo hi Hlo Hhi _ NE)|].
    apply (scaled_in_unit values lo hi Hlo Hhi _ NE).
    apply (clip_between values lo hi Hlo Hhi).
Qed.

(** X5: The norm of [_plot] exists exactly for a non-empty sequence ([min] of
    an empty one raises [ValueError]); it then raises for no value at all,
    inside or outside the sequence, and every intensity lies in [0, 1]:
    the bounds it is built from are never reversed. *)
Theorem plot_norm_total_and_bounded (values : list Q) :
  (values = [] -> plot_norm values = Raise ValueError) /\
  (values <> [] ->
   exists norm,
     plot_norm values = Ok norm /\
     forall v, exists t, norm v = Ok t /\ 0 <= t <= 1).
Proof.
  split; [intros ->; reflexivity|].
  intro Hne.
  destruct (py_min_total values Hne) as [lo Hlo].
  destruct (py_max_total values Hne) as [hi Hhi].
  exists (Normalize lo hi true).
  split; [now apply plot_norm_bounds|].
  now apply (Normalize_total values).
Qed.

Lemma plot_norm_total_and_bounded_witness :
  exists norm,
    plot_norm [1; 3; 2] = Ok norm /\
    forall v, exists t, norm v = Ok t /\ 0 <= t <= 1.
Proof.
  apply (plot_norm_total_and_bounded [1; 3; 2]). discriminate.
Defined.

Lemma py_max_app_le (l : list Q) (hi m : Q) :
  py_max l = Ok hi -> m <= hi -> py_max (l ++ [m]) = Ok hi.
Proof.
  destruct l as [|v l]; simpl; [discriminate|].
  intros [= <-] Hle. f_equal.
  rewrite fold_left_app. simpl. unfold max_step at 1.
  apply Qlt_bool_false in Hle. now rewrite Hle.
Qed.

(** Four copies of the minimum at the end change neither [min] nor
    [max]. *)
Lemma padded_bounds (l : list Q) (lo hi : Q) :
  py_min l = Ok lo -> py_max l = Ok hi ->
  py_min (l ++ [lo; lo; lo; lo]) = Ok lo /\
  py_max (l ++ [lo; lo; lo; lo]) = Ok hi.
Proof.
  intros Hlo Hhi. pose proof (min_le_max l lo hi Hlo Hhi) as Hle.
  change (l ++ [lo; lo; lo; lo]) with (l ++ [lo] ++ [lo] ++ [lo] ++ [lo]).
  rewrite !app_assoc. split.
  - now do 4 apply py_min_app_min.
  - now do 4 (apply py_max_app_le; [|exact Hle]).
Qed.

(** X6: The colour scale of a metric is spanned by its real values: the four
    padding entries change neither the minimum nor the maximum that
    [_plot] normalises with. *)
Theorem padding_keeps_colour_scale (self : HeatMapGenerator) (a : ddict)
    (key : string) (f : Row -> Q) :
  _data self <> [] -> In (key, f) metric_fields -> aggregate self = Ok a ->
  exists lo hi,
    py_min (map f (_data self)) = Ok lo /\
    py_max (map f (_data self)) = Ok hi /\
    py_min (dd_get key a) = Ok lo /\
    py_max (dd_get key a) = Ok hi /\
    plot_norm (dd_get key a) = plot_norm (map f (_data self)).
Proof.
  intros Hne Hin Ha.
  destruct (padded_metric self a key f Hne Ha Hin) as (_ & _ & lo & Hlo & Hk).
  destruct (py_max_total (map f (_data self))) as [hi Hhi].
  { destruct (_data self); [congruence|discriminate]. }
  destruct (padded_bounds _ lo hi Hlo Hhi) as [Pmin Pmax].
  exists lo, hi. rewrite Hk. repeat split; try assumption.
  rewrite (plot_norm_bounds _ lo hi Pmin Pmax).
  now rewrite (plot_norm_bounds _ lo hi Hlo Hhi).
Qed.

Lemma padding_keeps_colour_scale_witness :
  exists lo hi,
    py_min (map iwconfig_level [point_a; point_b]) = Ok lo /\
    py_max (map iwconfig_level [point_a; point_b]) = Ok hi /\
    py_min [-50; -70; -70; -70; -70; -70] = Ok lo /\
    py_max [-50; -70; -70; -70; -70; -70] = Ok hi.
Proof.
  destruct (padding_keeps_colour_scale (survey [point_a; point_b] [])
              (full_dict [10; 20; 0; 0; 8; 8] [10; 30; 0; 8; 0; 8]
                 [-50; -70; -70; -70; -70; -70] [60; 40; 40; 40; 40; 40]
                 [5 # 2; 7 # 2; 5 # 2; 5 # 2; 5 # 2; 5 # 2]
                 [3; 2; 2; 2; 2; 2] [1; 1; 1; 1; 1; 1]
                 [1 # 10; 1 # 10; 1 # 10; 1 # 10; 1 # 10; 1 # 10])
              "rssi" iwconfig_level)
    as (lo & hi & H1 & H2 & H3 & H4 & _).
  - simpl. discriminate.
  - left. reflexivity.
  - vm_compute. reflexivity.
  - exists lo, hi. repeat split; assumption.
Defined.

(** The minimum of a sequence gets intensity 0 from the norm built on
    that sequence, constant or not. *)
Lemma norm_of_minimum (values : list Q) (norm : Q -> result Q) (m : Q) :
  plot_norm values = Ok norm -> py_min values = Ok m ->
  exists t, norm m = Ok t /\ t == 0.
Proof.
  intros Hn Hm.
  destruct (plot_norm_inv values norm Hn) as (lo & hi & Hlo & Hhi & ->).
  rewrite Hm in Hlo. injection Hlo as <-.
  destruct (Qeq_bool m hi) eqn:E.
  - apply Qeq_bool_iff in E. exists 0.
    split; [now apply Normalize_degenerate|reflexivity].
  - assert (NE : ~ m == hi) by now apply Qeq_bool_neq.
    pose proof (min_le_max values m hi Hm Hhi) as Hle.
    eexists. split; [apply (Normalize_regular values m hi Hm Hhi _ NE)|].
    rewrite (clip_below values m hi Hm Hhi m (Qle_refl m)).
    field. lra.
Qed.

End ColourScale.

(* ===================================================================== *)
(** ** Further properties: the traces of [_plot] *)
(* ===================================================================== *)

Section PlotTraces.

Variable Rbf : list Q -> list Q -> list Q -> result (Q -> Q -> Q).

(** Whatever its outcome, the marker loop emits markers only. *)
Lemma plot_loop_only_markers (a : ddict) (key : string)
    (norm : Q -> result Q) :
  forall idxs tr r,
    for_each idxs (plot_point a key norm) = (tr, r) ->
    forallb is_marker tr = true.
Proof.
  induction idxs as [|idx idxs IH]; intros tr r; simpl.
  - intros [= <- _]. reflexivity.
  - unfold plot_point at 1, to_rgba.
    destruct (getitem (dd_get "x" a) idx) as [x|];
      cbn [lift bind]; [|intros [= <- _]; reflexivity].
    destruct (getitem (dd_get "y" a) idx) as [y|];
      cbn [lift bind]; [|intros [= <- _]; reflexivity].
    destruct (getitem (dd_get key a) idx) as [v|];
      cbn [lift bind]; [|intros [= <- _]; reflexivity].
    destruct (norm v) as [t|]; cbn [lift bind rbind emit app];
      [|intros [= <- _]; reflexivity].
    destruct (for_each idxs (plot_point a key norm)) as [tr' r'] eqn:El.
    intros [= <- _]. simpl. now apply (IH tr' r').
Qed.

(** On aligned sequences and with a norm that never raises, the loop
    draws one marker per index and returns. *)
Lemma plot_loop_total (a : ddict) (key : string) (norm : Q -> result Q) :
  List.length (dd_get "y" a) = List.length (dd_get "x" a) ->
  List.length (dd_get key a) = List.length (dd_get "x" a) ->
  (forall v, exists t, norm v = Ok t) ->
  forall idxs,
    Forall (fun idx => (idx < List.length (dd_get "x" a))%nat) idxs ->
    exists tr,
      for_each idxs (plot_point a key norm) = (tr, Ok tt) /\
      List.length tr = List.length idxs.
Proof.
  intros Hy Hk Hnorm.
  induction 1 as [|idx idxs Hidx _ (tr & Htr & Hlen)]; simpl.
  - exists []. now split.
  - unfold plot_point at 1, to_rgba, getitem.
    destruct (nth_error (dd_get "x" a) idx) as [x|] eqn:Ex;
      [|apply nth_error_None in Ex; lia].
    cbn [lift bind].
    destruct (nth_error (dd_get "y" a) idx) as [y|] eqn:Ey;
      [|apply nth_error_None in Ey; lia].
    cbn [lift bind].
    destruct (nth_error (dd_get key a) idx) as [v|] eqn:Ev;
      [|apply nth_error_None in Ev; lia].
    cbn [lift bind].
    destruct (Hnorm v) as [t Ht]. rewrite Ht.
    cbn [lift bind rbind emit app]. rewrite Htr.
    eexists. split; [reflexivity|]. simpl. now rewrite Hlen.
Qed.

(** The trace of a call of [_plot] that returns. *)
Lemma plot_returns_trace (self : HeatMapGenerator) (a : ddict)
    (key title : string) (gx gy : list Q) (num_x num_y : Z)
    (tr : list event) :
  _plot Rbf self a key title gx gy num_x num_y = (tr, Ok tt) ->
  exists z loop,
    forallb is_marker loop = true /\
    tr = plot_prelude self title z ++ loop
         ++ [PpSavefig (key ++ "_" ++ _title self ++ ".png")%string;
             PpCloseAll].
Proof.
  unfold _plot.
  destruct (Rbf (dd_get "x" a) (dd_get "y" a) (dd_get key a)) as [rbf|];
    [|cbn; discriminate].
  cbn [lift emit bind app].
  destruct (Np.reshape _ num_y num_x) as [z|]; [|cbn; discriminate].
  destruct (plot_norm (dd_get key a)) as [norm|]; [|cbn; discriminate].
  destruct (for_each _ (plot_point a key norm)) as [loop [[]|]] eqn:El;
    [|cbn; discriminate].
  cbn. intros [= <-].
  exists z, loop. split; [exact (plot_loop_only_markers _ _ _ _ _ _ El)|].
  reflexivity.
Qed.

(** X9: A call of [_plot] that raises has saved no file and has not closed
    the figure: every failure point (the fit, the reshape, [min] of an
    empty sequence, an index or the norm inside the marker loop) lies
    before [savefig], and no exception is handled. *)
Theorem plot_failure_saves_nothing (self : HeatMapGenerator) (a : ddict)
    (key title : string) (gx gy : list Q) (num_x num_y : Z)
    (tr : list event) (e : exn) :
  _plot Rbf self a key title gx gy num_x num_y = (tr, Raise e) ->
  forall ev, In ev tr -> is_savefig ev = false /\ ev <> PpCloseAll.
Proof.
  unfold _plot.
  assert (Hmark : forall l ev, forallb is_marker l = true -> In ev l ->
                    is_savefig ev = false /\ ev <> PpCloseAll).
  { intros l ev Hl Hev. rewrite forallb_forall in Hl.
    specialize (Hl ev Hev). destruct ev; try discriminate.
    split; [reflexivity|discriminate]. }
  assert (Hsmall : forall ev l,
            (forall ev', In ev' l -> is_savefig ev' = false /\ ev' <> PpCloseAll) ->
            is_savefig ev = false -> ev <> PpCloseAll ->
            forall ev', In ev' (ev :: l) ->
                        is_savefig ev' = false /\ ev' <> PpCloseAll).
  { intros ev l Hl H1 H2 ev' [<-|Hin]; [now split|now apply Hl]. }
  destruct (Rbf (dd_get "x" a) (dd_get "y" a) (dd_get key a)) as [rbf|].
  2:{ cbn. intros [= <- _].
      repeat (apply Hsmall; [|reflexivity|discriminate]). intros ev []. }
  cbn [lift emit bind app].
  destruct (Np.reshape _ num_y num_x) as [z|].
  2:{ cbn. intros [= <- _].
      repeat (apply Hsmall; [|reflexivity|discriminate]). intros ev []. }
  destruct (plot_norm (dd_get key a)) as [norm|].
  2:{ cbn. intros [= <- _].
      repeat (apply Hsmall; [|reflexivity|discriminate]). intros ev []. }
  destruct (for_each _ (plot_point a key norm)) as [loop [[]|e']] eqn:El.
  { cbn. discriminate. }
  cbn. intros [= <- _].
  repeat (apply Hsmall; [|reflexivity|discriminate]).
  intros ev Hev.
  exact (Hmark _ _ (plot_loop_only_markers _ _ _ _ _ _ El) Hev).
Qed.

End PlotTraces.

Lemma plot_failure_saves_nothing_witness :
  is_savefig (PpTitle "home - RSSI (level)") = false /\
  PpTitle "home - RSSI (level)" <> PpCloseAll.
Proof.
  apply (plot_failure_saves_nothing (fun _ _ _ => Raise LinAlgError)
           (survey [point_a] []) point_a_dict
           "rssi" "home - RSSI (level)" (fst grid8) (snd grid8) 2 2
           [RcFigsize (8 / 300) (8 / 300); PpTitle "home - RSSI (level)"]
           LinAlgError).
  - reflexivity.
  - right. left. reflexivity.
Defined.

(** X8: On the dict that [generate] builds from a non-empty dataset, a call of
    [_plot] for a metric returns whenever the fit succeeds and the grid
    comes from two axes: neither the reshape, nor [min]/[max], nor an
    index of the marker loop, nor the norm raises.  Its trace is the
    prelude with the field of the interpolator over the axes, one marker
    per padded entry, one [savefig] of [key_title.png] and the closing of
    the figure. *)
Theorem plot_succeeds_on_aggregated_data
    (Rbf : list Q -> list Q -> list Q -> result (Q -> Q -> Q))
    (self : HeatMapGenerator) (a : ddict) (key : string) (f : Row -> Q)
    (title : string) (x y : list Q) (rbf : Q -> Q -> Q) :
  _data self <> [] -> In (key, f) metric_fields -> aggregate self = Ok a ->
  Rbf (dd_get "x" a) (dd_get "y" a) (dd_get key a) = Ok rbf ->
  exists loop,
    _plot Rbf self a key title
          (fst (Np.meshgrid_flat x y)) (snd (Np.meshgrid_flat x y))
          (len x) (len y)
    = (plot_prelude self title (map (fun yj => map (fun xi => rbf xi yj) x) y)
       ++ loop
       ++ [PpSavefig (key ++ "_" ++ _title self ++ ".png")%string;
           PpCloseAll],
       Ok tt) /\
    forallb is_marker loop = true /\
    List.length loop = (List.length (_data self) + 4)%nat.
Proof.
  intros Hne Hin Ha HRbf.
  destruct (padded_metric self a key f Hne Ha Hin) as (Hx & Hy & m & Hm & Hk).
  assert (Hlx : List.length (dd_get "x" a)
                = (List.length (_data self) + 4)%nat)
    by (rewrite Hx, length_app, length_map; reflexivity).
  assert (Hly : List.length (dd_get "y" a) = List.length (dd_get "x" a))
    by (rewrite Hx, Hy, !length_app, !length_map; reflexivity).
  assert (Hlk : List.length (dd_get key a) = List.length (dd_get "x" a))
    by (rewrite Hx, Hk, !length_app, !length_map; reflexivity).
  assert (Hvne : dd_get key a <> []).
  { rewrite Hk. destruct (map f (_data self)); discriminate. }
  destruct (py_min_total _ Hvne) as [lo Hlo].
  destruct (py_max_total _ Hvne) as [hi Hhi].
  destruct (plot_loop_total a key (Normalize lo hi true) Hly Hlk)
    with (idxs := seq 0 (List.length (dd_get "x" a)))
    as (loop & Hloop & Hlen).
  { intros v. destruct (Normalize_total _ lo hi Hlo Hhi v) as (t & Ht & _).
    now exists t. }
  { apply Forall_forall. intros idx Hidx. apply in_seq in Hidx. lia. }
  exists loop. split; [|split].
  - unfold _plot. rewrite HRbf. cbn [lift emit bind app].
    rewrite reshape_meshgrid.
    rewrite (plot_norm_bounds _ lo hi Hlo Hhi).
    rewrite Hloop. reflexivity.
  - exact (plot_loop_only_markers a key _ _ _ _ Hloop).
  - now rewrite Hlen, length_seq.
Qed.

Lemma plot_succeeds_on_aggregated_data_witness :
  exists loop,
    _plot flat_rbf (survey [point_a] [])
          (full_dict [10; 0; 0; 8; 8] [10; 0; 8; 0; 8]
             [-50; -50; -50; -50; -50] [60; 60; 60; 60; 60]
             [5 # 2; 5 # 2; 5 # 2; 5 # 2; 5 # 2]
             [3; 3; 3; 3; 3] [1; 1; 1; 1; 1]
             [1 # 10; 1 # 10; 1 # 10; 1 # 10; 1 # 10])
          "rssi" "home - RSSI (level)"
          (fst (Np.meshgrid_flat [0; 8] [0; 8]))
          (snd (Np.meshgrid_flat [0; 8] [0; 8])) 2 2
    = (plot_prelude (survey [point_a] []) "home - RSSI (level)"
         [[0; 0]; [0; 0]]
       ++ loop ++ [PpSavefig "rssi_home.png"; PpCloseAll], Ok tt) /\
    List.length loop = 5%nat.
Proof.
  destruct (plot_succeeds_on_aggregated_data flat_rbf (survey [point_a] [])
              (full_dict [10; 0; 0; 8; 8] [10; 0; 8; 0; 8]
                 [-50; -50; -50; -50; -50] [60; 60; 60; 60; 60]
                 [5 # 2; 5 # 2; 5 # 2; 5 # 2; 5 # 2]
                 [3; 3; 3; 3; 3] [1; 1; 1; 1; 1]
                 [1 # 10; 1 # 10; 1 # 10; 1 # 10; 1 # 10])
              "rssi" iwconfig_level "home - RSSI (level)"
              [0; 8] [0; 8] (fun _ _ => 0))
    as (loop & Hrun & _ & Hlen).
  - simpl. discriminate.
  - left. reflexivity.
  - vm_compute. reflexivity.
  - reflexivity.
  - exists loop. split; [exact Hrun|exact Hlen].
Defined.

(** X10: On the dict of an empty dataset there is no metric sequence: [_plot]
    hands the fit an empty value list, and if the fit accepts it the call
    dies with the [ValueError] of [min] of an empty sequence, after the
    axes are switched off and before anything is drawn. *)
Theorem plot_on_empty_survey
    (Rbf : list Q -> list Q -> list Q -> result (Q -> Q -> Q))
    (self : HeatMapGenerator) (a : ddict) (key title : string)
    (x y : list Q) (rbf : Q -> Q -> Q) :
  _data self = [] -> aggregate self = Ok a ->
  In key (map fst metric_titles) ->
  dd_get key a = [] /\
  (Rbf [0; 0; inject_Z (_image_width self); inject_Z (_image_width self)]
       [0; inject_Z (_image_height self); 0; inject_Z (_image_height self)]
       [] = Ok rbf ->
   _plot Rbf self a key title
         (fst (Np.meshgrid_flat x y)) (snd (Np.meshgrid_flat x y))
         (len x) (len y)
   = ([RcFigsize (inject_Z (_image_width self) / 300)
                 (inject_Z (_image_height self) / 300);
       PpTitle title; PpAxisOff], Raise ValueError)).
Proof.
  intros E Ha Hkey. unfold aggregate in Ha. rewrite E, pad_empty in Ha.
  injection Ha as <-.
  assert (Hk : dd_get key
                 [("x", [0; 0; inject_Z (_image_width self);
                         inject_Z (_image_width self)]);
                  ("y", [0; inject_Z (_image_height self); 0;
                         inject_Z (_image_height self)])] = []).
  { simpl in Hkey.
    destruct Hkey as [<-|[<-|[<-|[<-|[<-|[<-|[]]]]]]]; reflexivity. }
  split; [exact Hk|].
  intro HRbf. unfold _plot. rewrite Hk.
  change (dd_get "x" _) with
    [0; 0; inject_Z (_image_width self); inject_Z (_image_width self)].
  change (dd_get "y" _) with
    [0; inject_Z (_image_height self); 0; inject_Z (_image_height self)].
  rewrite HRbf. cbn [lift emit bind app].
  rewrite reshape_meshgrid. reflexivity.
Qed.

Lemma plot_on_empty_survey_witness :
  dd_get "rssi" [("x", [0; 0; 8; 8]); ("y", [0; 8; 0; 8])] = [] /\
  (flat_rbf [0; 0; 8; 8] [0; 8; 0; 8] [] = Ok (fun _ _ => 0) ->
   _plot flat_rbf (survey [] []) [("x", [0; 0; 8; 8]); ("y", [0; 8; 0; 8])]
         "rssi" "home - RSSI (level)"
         (fst (Np.meshgrid_flat [0; 8] [0; 8]))
         (snd (Np.meshgrid_flat [0; 8] [0; 8])) 2 2
   = ([RcFigsize (8 / 300) (8 / 300); PpTitle "home - RSSI (level)";
       PpAxisOff], Raise ValueError)).
Proof.
  apply (plot_on_empty_survey flat_rbf (survey [] [])
           [("x", [0; 0; 8; 8]); ("y", [0; 8; 0; 8])]
           "rssi" "home - RSSI (level)" [0; 8] [0; 8] (fun _ _ => 0)).
  - reflexivity.
  - reflexivity.
  - left. reflexivity.
Defined.

Section FileNames.

Lemma string_length_append (s t : string) :
  String.length (s ++ t)%string = (String.length s + String.length t)%nat.
Proof. induction s as [|c s IH]; simpl; [reflexivity|now rewrite IH]. Qed.

Lemma string_app_inv_tail (t : string) : forall s1 s2 : string,
  (s1 ++ t = s2 ++ t)%string -> s1 = s2.
Proof.
  induction s1 as [|c s1 IH]; intros [|c' s2] E; simpl in E.
  - reflexivity.
  - apply (f_equal String.length) in E. simpl in E.
    rewrite string_length_append in E. lia.
  - apply (f_equal String.length) in E. simpl in E.
    rewrite string_length_append in E. lia.
  - injection E as -> E. f_equal. now apply IH.
Qed.

Variable Rbf : list Q -> list Q -> list Q -> result (Q -> Q -> Q).

(** X11: A call of [_plot] that returns saves exactly one file, named
    [key_title.png] from the key and the title of the generator; two
    calls for different keys on one generator therefore never write the
    same file. *)
Theorem plot_file_names_distinct (self : HeatMapGenerator)
    (a1 a2 : ddict) (key1 key2 title1 title2 : string)
    (gx1 gy1 gx2 gy2 : list Q) (nx1 ny1 nx2 ny2 : Z)
    (tr1 tr2 : list event) :
  key1 <> key2 ->
  _plot Rbf self a1 key1 title1 gx1 gy1 nx1 ny1 = (tr1, Ok tt) ->
  _plot Rbf self a2 key2 title2 gx2 gy2 nx2 ny2 = (tr2, Ok tt) ->
  List.length (filter is_savefig tr1) = 1%nat /\
  List.length (filter is_savefig tr2) = 1%nat /\
  forall f1 f2,
    In (PpSavefig f1) tr1 -> In (PpSavefig f2) tr2 ->
    f1 = (key1 ++ "_" ++ _title self ++ ".png")%string /\
    f2 = (key2 ++ "_" ++ _title self ++ ".png")%string /\
    f1 <> f2.
Proof.
  intros Hne H1 H2.
  assert (Hone : forall a key title gx gy nx ny tr,
            _plot Rbf self a key title gx gy nx ny = (tr, Ok tt) ->
            filter is_savefig tr
            = [PpSavefig (key ++ "_" ++ _title self ++ ".png")%string]).
  { intros a key title gx gy nx ny tr Hrun.
    apply plot_returns_trace in Hrun.
    destruct Hrun as (z & loop & Hloop & ->).
    unfold plot_prelude. cbn. rewrite filter_app. cbn.
    replace (filter is_savefig loop) with (@nil event); [reflexivity|].
    clear -Hloop. induction loop as [|ev loop IH]; [reflexivity|].
    simpl in Hloop. apply andb_true_iff in Hloop. destruct Hloop as [Hev Hl].
    destruct ev; try discriminate. simpl. now apply IH. }
  pose proof (Hone _ _ _ _ _ _ _ _ H1) as F1.
  pose proof (Hone _ _ _ _ _ _ _ _ H2) as F2.
  split; [now rewrite F1|]. split; [now rewrite F2|].
  intros f1 f2 I1 I2.
  assert (E1 : In (PpSavefig f1) (filter is_savefig tr1))
    by (apply filter_In; now split).
  assert (E2 : In (PpSavefig f2) (filter is_savefig tr2))
    by (apply filter_In; now split).
  rewrite F1 in E1. rewrite F2 in E2.
  destruct E1 as [[= <-]|[]]. destruct E2 as [[= <-]|[]].
  split; [reflexivity|]. split; [reflexivity|].
  intro E. apply Hne. now apply string_app_inv_tail in E.
Qed.

End FileNames.

Lemma plot_file_names_distinct_witness :
  ("rssi_home.png" <> "jitter_home.png")%string.
Proof.
  destruct (plot_file_names_distinct flat_rbf (survey [point_a] [])
              point_a_dict point_a_dict
              "rssi" "jitter" "home - RSSI (level)" "home - UDP Jitter (ms)"
              (fst grid8) (snd grid8) (fst grid8) (snd grid8) 2 2 2 2
              (fst rssi_run) (fst jitter_run))
    as (_ & _ & Hnames).
  - discriminate.
  - vm_compute. reflexivity.
  - vm_compute. reflexivity.
  - destruct (Hnames "rssi_home.png" "jitter_home.png")%string
      as (_ & _ & Hd).
    + vm_compute. do 11 right. left. reflexivity.
    + vm_compute. do 11 right. left. reflexivity.
    + exact Hd.
Defined.

(** X7: In a call of [_plot] that returns for a metric of a non-empty survey,
    the four markers after the real points sit on the corners (0,0),
    (0,height), (width,0), (width,height) and are drawn with intensity 0,
    the low end of the palette, whatever the metric. *)
Theorem corner_markers_have_zero_intensity
    (Rbf : list Q -> list Q -> list Q -> result (Q -> Q -> Q))
    (self : HeatMapGenerator) (a : ddict) (key : string) (f : Row -> Q)
    (title : string) (gx gy : list Q) (num_x num_y : Z) (tr : list event) :
  _data self <> [] ->
  In (key, f) metric_fields ->
  aggregate self = Ok a ->
  _plot Rbf self a key title gx gy num_x num_y = (tr, Ok tt) ->
  forall j c,
    nth_error (corners (_image_width self) (_image_height self)) j = Some c ->
    exists t,
      nth_error (markers tr) (List.length (_data self) + j)
      = Some (PpPlot (fst c) (snd c) (RdYlBu_r t)) /\
      t == 0.
Proof.
  intros Hne Hin Ha Hrun j c Hc.
  destruct (padded_metric self a key f Hne Ha Hin) as (Hx & Hy & m & Hm & Hk).
  destruct (plot_returns Rbf self a key title gx gy num_x num_y tr Hrun)
    as (norm & Hnorm & _ & Hall).
  assert (Hmin : py_min (dd_get key a) = Ok m).
  { rewrite Hk.
    change (map f (_data self) ++ [m; m; m; m])
      with (map f (_data self) ++ [m] ++ [m] ++ [m] ++ [m]).
    rewrite !app_assoc. now do 4 apply py_min_app_min. }
  destruct (norm_of_minimum _ norm m Hnorm Hmin) as (t0 & Ht0 & Hz).
  rewrite Hx, Hy, Hk in Hall.
  apply Forall2_seq_nth in Hall. destruct Hall as [_ Hnth].
  assert (Hj : (j < 4)%nat).
  { assert (Hs : nth_error (corners (_image_width self)
                                      (_image_height self)) j <> None)
      by (rewrite Hc; discriminate).
    apply nth_error_Some in Hs. exact Hs. }
  destruct (Hnth (List.length (_data self) + j)%nat) as (ev & Hev & Hmark).
  { rewrite length_app, length_map. simpl. lia. }
  destruct Hmark as (x & y & v & t & Ex & Ey & Ev & Et & ->).
  simpl in Ex, Ey, Ev.
  rewrite nth_error_app2 in Ex, Ey, Ev by (rewrite length_map; lia).
  rewrite length_map in Ex, Ey, Ev.
  replace (List.length (_data self) + j - List.length (_data self))%nat
    with j in Ex, Ey, Ev by lia.
  assert (Hv : v = m).
  { destruct j as [|[|[|[|j]]]]; simpl in Ev; try (now injection Ev);
      lia. }
  subst v. rewrite Ht0 in Et. injection Et as <-.
  exists t0. split; [|exact Hz].
  rewrite Hev.
  destruct j as [|[|[|[|j]]]]; simpl in Ex, Ey, Hc; try lia;
    injection Ex as <-; injection Ey as <-; injection Hc as <-;
    reflexivity.
Qed.

Lemma corner_markers_have_zero_intensity_witness :
  exists t,
    nth_error (markers (fst rssi_run)) (1 + 3)
    = Some (PpPlot (fst (8, 8)) (snd (8, 8)) (RdYlBu_r t)) /\ t == 0.
Proof.
  apply (corner_markers_have_zero_intensity flat_rbf (survey [point_a] [])
           point_a_dict "rssi" iwconfig_level "home - RSSI (level)"
           (fst grid8) (snd grid8) 2 2 (fst rssi_run)).
  - simpl. discriminate.
  - left. reflexivity.
  - vm_compute. reflexivity.
  - vm_compute. reflexivity.
  - reflexivity.
Defined.

(* ===================================================================== *)
(** ** Further properties: the channel aggregate *)
(* ===================================================================== *)

Section ChannelFacts.

Variable ignore_ssids : list string.

Lemma existsb_Qeq_InA (k : Q) (ks : list Q) :
  existsb (Qeq_bool k) ks = true <-> InA Qeq k ks.
Proof.
  rewrite existsb_exists, InA_alt. split.
  - intros (k' & Hin & E). exists k'. split; [now apply Qeq_bool_iff|exact Hin].
  - intros (k' & E & Hin). exists k'. split; [exact Hin|now apply Qeq_bool_iff].
Qed.

(** Appending under a key adds the key at the end when no equal key is
    there, and leaves the keys alone otherwise. *)
Lemma fd_append_keys (k v : Q) (ch : list (Q * list Q)) :
  map fst (fd_append k v ch) =
  if existsb (Qeq_bool k) (map fst ch) then map fst ch
  else map fst ch ++ [k].
Proof.
  induction ch as [|[k' l] ch IH]; simpl; [reflexivity|].
  destruct (Qeq_bool k k'); simpl; [reflexivity|].
  rewrite IH. now destruct (existsb (Qeq_bool k) (map fst ch)).
Qed.

Lemma fd_append_NoDupA (k v : Q) (ch : list (Q * list Q)) :
  NoDupA Qeq (map fst ch) -> NoDupA Qeq (map fst (fd_append k v ch)).
Proof.
  intro Hnd. rewrite fd_append_keys.
  destruct (existsb (Qeq_bool k) (map fst ch)) eqn:E; [exact Hnd|].
  apply NoDupA_app; [exact Q_Setoid|exact Hnd| |].
  - constructor; [intro H; inversion H|constructor].
  - intros x Hx Hk. inversion Hk as [? ? Hxk|? ? Hnil]; subst;
      [|inversion Hnil].
    assert (Hin : InA Qeq k (map fst ch)).
    { eapply InA_eqA; [exact Q_Setoid|exact Hxk|exact Hx]. }
    apply existsb_Qeq_InA in Hin. congruence.
Qed.

Lemma bucket_scans_NoDupA (scans : list Scan) : forall ch,
  NoDupA Qeq (map fst ch) ->
  NoDupA Qeq (map fst (fold_left (bucket_scan ignore_ssids) scans ch)).
Proof.
  induction scans as [|s scans IH]; intros ch Hch; simpl; [exact Hch|].
  apply IH. unfold bucket_scan.
  destruct (str_in (ESSID s) ignore_ssids); [exact Hch|].
  now apply fd_append_NoDupA.
Qed.

Lemma bucket_rows_NoDupA (data : list Row) : forall ch,
  NoDupA Qeq (map fst ch) ->
  NoDupA Qeq (map fst (bucket_rows ignore_ssids data ch)).
Proof.
  unfold bucket_rows.
  induction data as [|r data IH]; intros ch Hch; simpl; [exact Hch|].
  apply IH. now apply bucket_scans_NoDupA.
Qed.

Lemma means_keys (ch : list (Q * list Q)) (ms : list (Q * Q)) :
  means ch = Ok ms -> map fst ms = map fst ch.
Proof.
  unfold means. revert ms.
  induction ch as [|[k l] ch IH]; intros ms; simpl.
  - intros [= <-]. reflexivity.
  - destruct (mean l) as [m|]; [|discriminate]. simpl.
    destruct (rmap _ ch) as [ms'|]; [|discriminate]. simpl.
    intros [= <-]. simpl. f_equal. now apply IH.
Qed.

Lemma fd_append_not_nil (k v : Q) (ch : list (Q * list Q)) :
  fd_append k v ch <> [].
Proof.
  destruct ch as [|[k' l] ch]; simpl; [discriminate|].
  destruct (Qeq_bool k k'); discriminate.
Qed.

Lemma bucket_scans_nil (scans : list Scan) : forall ch,
  fold_left (bucket_scan ignore_ssids) scans ch = [] <->
  ch = [] /\ Forall (fun s => str_in (ESSID s) ignore_ssids = true) scans.
Proof.
  induction scans as [|s scans IH]; intros ch; simpl.
  - split; [intros ->; split; constructor|now intros [-> _]].
  - rewrite IH. unfold bucket_scan.
    destruct (str_in (ESSID s) ignore_ssids) eqn:E.
    + split; intros [H1 H2]; (split; [exact H1|]).
      * now constructor.
      * now inversion H2.
    + split.
      * intros [H1 _]. now apply fd_append_not_nil in H1.
      * intros [_ H2]. inversion H2. congruence.
Qed.

Lemma bucket_rows_nil (data : list Row) : forall ch,
  bucket_rows ignore_ssids data ch = [] <->
  ch = [] /\
  Forall (fun s => str_in (ESSID s) ignore_ssids = true)
         (flat_map iwscan data).
Proof.
  unfold bucket_rows.
  induction data as [|r data IH]; intros ch; simpl.
  - split; [intros ->; split; constructor|now intros [-> _]].
  - rewrite IH, bucket_scans_nil, Forall_app. tauto.
Qed.

End ChannelFacts.

(** The sum of values between two bounds lies between the bounds times
    the count. *)
Lemma py_sum_bounds (lo hi : Q) (l : list Q) :
  (forall v, In v l -> lo <= v <= hi) ->
  inject_Z (len l) * lo <= py_sum l <= inject_Z (len l) * hi.
Proof.
  intro Hb. unfold py_sum.
  assert (G : forall acc,
            acc + inject_Z (len l) * lo <= fold_left Qplus l acc
            <= acc + inject_Z (len l) * hi).
  { induction l as [|v l IH]; intros acc.
    - unfold len. simpl. change (inject_Z 0) with 0. lra.
    - simpl fold_left.
      destruct (IH (fun w Hw => Hb w (or_intror Hw)) (acc + v)) as [I1 I2].
      destruct (Hb v (or_introl eq_refl)) as [B1 B2].
      assert (E : inject_Z (len (v :: l)) == inject_Z (len l) + 1).
      { unfold len. simpl List.length. rewrite Nat2Z.inj_succ.
        unfold Z.succ. rewrite inject_Z_plus. reflexivity. }
      rewrite E. lra. }
  specialize (G 0). lra.
Qed.

(** X12: The dict that [_plot_channels] prints has each frequency once: no
    two of its keys are equal as numbers; its keys are the keys of the
    buckets, in the same order, and a frequency is a key exactly when a
    counted scan was observed at it. *)
Theorem channel_keys_are_distinct (self : HeatMapGenerator)
    (ch : list (Q * Q)) :
  means (bucket (_ignore_ssids self) (_data self)) = Ok ch ->
  NoDupA Qeq (map fst ch) /\
  map fst ch = map fst (bucket (_ignore_ssids self) (_data self)) /\
  forall f, InA Qeq f (map fst ch) <->
            observed (_ignore_ssids self) (_data self) f <> [].
Proof.
  intro Hch. pose proof (means_keys _ _ Hch) as Hkeys.
  split; [|split; [exact Hkeys|]].
  - rewrite Hkeys. apply bucket_rows_NoDupA. constructor.
  - intros f.
    destruct (plot_channels_run self) as (ch' & Hch' & _ & Hget).
    rewrite Hch in Hch'. injection Hch' as <-.
    specialize (Hget f).
    assert (Hfind : InA Qeq f (map fst ch) <-> fd_get f ch <> None).
    { clear. induction ch as [|[k m] ch IH]; simpl.
      - split; [intro H; inversion H|congruence].
      - destruct (Qeq_bool f k) eqn:E.
        + apply Qeq_bool_iff in E. split; [discriminate|].
          intros _. now constructor.
        + rewrite <- IH. split.
          * intro H. inversion H as [? ? Hfk|? ? Hin]; subst; [|exact Hin].
            apply Qeq_bool_iff in Hfk. congruence.
          * intro H. now constructor 2. }
    rewrite Hfind, Hget.
    destruct (observed (_ignore_ssids self) (_data self) f);
      split; congruence.
Qed.

Lemma channel_keys_are_distinct_witness :
  NoDupA Qeq (map fst [(2412000000 / 1000000, 120 / inject_Z 2)]).
Proof.
  apply (channel_keys_are_distinct (survey [point_a; point_b] [])).
  reflexivity.
Defined.

(** X13: When the quality scores counted for a frequency are integers from 0
    to below 2^53 (the form in which [iwconfig] reports them), the mean
    that [_plot_channels] prints for it lies between the smallest and the
    largest of them; so does the binary64 value nearest to that mean,
    which is what the division [sum / len] of the integers yields in
    Python. *)
Theorem channel_mean_within_bounds (self : HeatMapGenerator)
    (ch : list (Q * Q)) (f m : Q) :
  means (bucket (_ignore_ssids self) (_data self)) = Ok ch ->
  fd_get f ch = Some m ->
  Forall (fun q => exists z, (0 <= z < 2 ^ 53)%Z /\ q = inject_Z z)
         (observed (_ignore_ssids self) (_data self) f) ->
  exists lo hi,
    py_min (observed (_ignore_ssids self) (_data self) f) = Ok lo /\
    py_max (observed (_ignore_ssids self) (_data self) f) = Ok hi /\
    lo <= m <= hi /\
    lo <= b64_round m <= hi.
Proof.
  intros Hch Hm Hint.
  destruct (plot_channels_run self) as (ch' & Hch' & _ & Hget).
  rewrite Hch in Hch'. injection Hch' as <-.
  rewrite Hget in Hm.
  destruct (observed (_ignore_ssids self) (_data self) f) as [|q qs] eqn:E;
    [discriminate|].
  injection Hm as <-.
  assert (Hne : q :: qs <> []) by discriminate.
  destruct (py_min_total _ Hne) as [lo Hlo].
  destruct (py_max_total _ Hne) as [hi Hhi].
  exists lo, hi. split; [exact Hlo|]. split; [exact Hhi|].
  destruct (py_min_spec _ _ Hlo) as [Hinlo Hmin].
  destruct (py_max_spec _ _ Hhi) as [Hinhi Hmax].
  destruct (py_sum_bounds lo hi (q :: qs)) as [S1 S2].
  { intros v Hv. split; [now apply Hmin|now apply Hmax]. }
  assert (Hpos : 0 < inject_Z (len (q :: qs))).
  { unfold len, Qlt, inject_Z. simpl. lia. }
  assert (Hb : lo <= py_sum (q :: qs) / inject_Z (len (q :: qs)) <= hi).
  { split.
    - apply Qle_shift_div_l; [exact Hpos|]. lra.
    - apply Qle_shift_div_r; [exact Hpos|]. lra. }
  split; [exact Hb|].
  rewrite Forall_forall in Hint.
  destruct (Hint lo Hinlo) as (zl & Hzl & ->).
  destruct (Hint hi Hinhi) as (zh & Hzh & ->).
  destruct Hb as [Hb1 Hb2]. split.
  - apply b64_round_ge_int; [lia|exact Hb1].
  - apply b64_round_le_int; [lia| |exact Hb2].
    apply Qle_trans with (inject_Z zl); [|exact Hb1].
    unfold Qle, inject_Z. simpl. lia.
Qed.

Lemma channel_mean_within_bounds_witness :
  exists lo hi,
    py_min (observed [] [point_a; point_b] 2412) = Ok lo /\
    py_max (observed [] [point_a; point_b] 2412) = Ok hi /\
    lo <= 120 / inject_Z 2 <= hi /\
    lo <= b64_round (120 / inject_Z 2) <= hi.
Proof.
  apply (channel_mean_within_bounds (survey [point_a; point_b] [])
           [(2412000000 / 1000000, 120 / inject_Z 2)] 2412).
  - reflexivity.
  - reflexivity.
  - constructor; [exists 50%Z; split; [lia|reflexivity]|].
    constructor; [exists 70%Z; split; [lia|reflexivity]|].
    constructor.
Defined.

(** X14: [_plot_channels] prints the empty dict exactly when every scan of
    every record carries an ignored ESSID (in particular when no record
    has a scan). *)
Theorem channels_empty_iff_all_ignored (self : HeatMapGenerator) :
  _plot_channels self = ([Print []], Raise NotImplementedError) <->
  Forall (fun s => str_in (ESSID s) (_ignore_ssids self) = true)
         (flat_map iwscan (_data self)).
Proof.
  destruct (plot_channels_run self) as (ch & Hch & Hrun & _).
  pose proof (means_keys _ _ Hch) as Hkeys.
  pose proof (bucket_rows_nil (_ignore_ssids self) (_data self) [])
    as Hnil.
  fold (bucket (_ignore_ssids self) (_data self)) in Hnil.
  rewrite Hrun. split.
  - intros [= ->]. simpl in Hkeys.
    apply Hnil. symmetry in Hkeys. now apply map_eq_nil in Hkeys.
  - intro Hall. destruct Hnil as [_ Hnil].
    rewrite Hnil in Hkeys by now split.
    simpl in Hkeys. apply map_eq_nil in Hkeys. now rewrite Hkeys.
Qed.

(* ===================================================================== *)
(** ** Further properties: [main], logging and the channel table *)
(* ===================================================================== *)



(** X16: The verbosity count sets the threshold of the logger: none keeps the
    level and the format of the start-up configuration, one [-v] gives
    INFO, two or more give DEBUG (every count above 2 behaves as 2); a
    higher count never gives a higher threshold. *)
Theorem main_verbosity_levels
    (imread : string -> result image)
    (json_file : string -> result (list Row))
    (Rbf : list Q -> list Q -> list Q -> result (Q -> Q -> Q))
    (args args' : Args) :
  ((verbose args <= 0)%Z ->
   fst (main imread json_file Rbf args logger0) = logger0) /\
  (verbose args = 1%Z ->
   logger_level (fst (main imread json_file Rbf args logger0)) = INFO) /\
  ((2 <= verbose args)%Z ->
   fst (main imread json_file Rbf args logger0) = set_log_debug logger0) /\
  ((verbose args <= verbose args')%Z ->
   (logger_level (fst (main imread json_file Rbf args' logger0))
    <= logger_level (fst (main imread json_file Rbf args logger0)))%Z).
Proof.
  unfold main. cbn [fst].
  repeat split.
  - intro H. destruct (Z.ltb_spec 1 (verbose args)); [lia|].
    destruct (Z.eqb_spec (verbose args) 1); [lia|reflexivity].
  - intros ->. reflexivity.
  - intro H. destruct (Z.ltb_spec 1 (verbose args)); [reflexivity|lia].
  - intro H.
    destruct (Z.ltb_spec 1 (verbose args)), (Z.ltb_spec 1 (verbose args'));
      destruct (Z.eqb_spec (verbose args) 1),
               (Z.eqb_spec (verbose args') 1);
      cbn; unfold DEBUG, INFO, WARNING; lia.
Qed.

Lemma main_verbosity_levels_witness :
  logger_level
    (fst (main (fun _ => Ok (blank 9 8)) (fun _ => Ok [point_a]) flat_rbf
            {| verbose := 1; ignore := []; IMAGE := "plan.png";
               TITLE := "home" |} logger0)) = INFO.
Proof.
  apply (main_verbosity_levels (fun _ => Ok (blank 9 8))
           (fun _ => Ok [point_a]) flat_rbf
           {| verbose := 1; ignore := []; IMAGE := "plan.png";
              TITLE := "home" |}
           {| verbose := 1; ignore := []; IMAGE := "plan.png";
              TITLE := "home" |}).
  reflexivity.
Defined.

Section ChannelTable.

Lemma wifi_channel_In (freq : Z) (cb : Z * Z) :
  wifi_channel freq = Some cb -> In (freq, cb) WIFI_CHANNELS.
Proof.
  unfold wifi_channel.
  destruct (find (fun e => (fst e =? freq)%Z) WIFI_CHANNELS)
    as [[f' cb']|] eqn:E; [|discriminate].
  simpl. intros [= <-]. apply find_some in E. destruct E as [Hin Heq].
  simpl in Heq. apply Z.eqb_eq in Heq. now subst.
Qed.

(** X17: Every entry of [WIFI_CHANNELS] follows the band plan: channels 1 to 13
    sit at 2407 + 5 * channel MHz, channel 14 at 2484 MHz, the 5 GHz
    channels at 5000 + 5 * channel MHz, and the width is 20, 40, 80 or 160
    MHz.  Hence the table is injective both ways: a frequency has one
    entry and no two frequencies share a channel number; the 63 keys of
    the literal are pairwise distinct. *)
Theorem wifi_channels_follow_band_plan :
  (forall freq channel width,
     wifi_channel freq = Some (channel, width) ->
     ((1 <= channel <= 13 /\ freq = 2407 + 5 * channel)
      \/ (channel = 14 /\ freq = 2484)
      \/ (32 <= channel <= 165 /\ freq = 5000 + 5 * channel))%Z
     /\ In width [20; 40; 80; 160]%Z) /\
  (forall freq1 freq2 channel width1 width2,
     wifi_channel freq1 = Some (channel, width1) ->
     wifi_channel freq2 = Some (channel, width2) ->
     freq1 = freq2) /\
  (forall freq cb, In (freq, cb) WIFI_CHANNELS <-> wifi_channel freq = Some cb) /\
  List.length WIFI_CHANNELS = 63%nat /\
  NoDup (map fst WIFI_CHANNELS).
Proof.
  assert (Hall : forallb follows_plan WIFI_CHANNELS = true)
    by (vm_compute; reflexivity).
  assert (Hplan : forall freq channel width,
            wifi_channel freq = Some (channel, width) ->
            ((1 <= channel <= 13 /\ freq = 2407 + 5 * channel)
             \/ (channel = 14 /\ freq = 2484)
             \/ (32 <= channel <= 165 /\ freq = 5000 + 5 * channel))%Z
            /\ In width [20; 40; 80; 160]%Z).
  { intros freq channel width Hw. apply wifi_channel_In in Hw.
    rewrite forallb_forall in Hall. specialize (Hall _ Hw).
    unfold follows_plan in Hall.
    apply andb_true_iff in Hall. destruct Hall as [Hf Hwd]. split.
    - repeat (apply orb_true_iff in Hf; destruct Hf as [Hf|Hf]);
        repeat (apply andb_true_iff in Hf; destruct Hf as [Hf ?]);
        repeat match goal with
               | H : (_ <=? _)%Z = true |- _ => apply Z.leb_le in H
               | H : (_ =? _)%Z = true |- _ => apply Z.eqb_eq in H
               end; lia.
    - repeat (apply orb_true_iff in Hwd; destruct Hwd as [Hwd|Hwd]);
        apply Z.eqb_eq in Hwd; subst; simpl; tauto. }
  split; [exact Hplan|]. split; [|split; [|split; [reflexivity|]]].
  - intros freq1 freq2 channel width1 width2 H1 H2.
    destruct (Hplan _ _ _ H1) as [P1 _]. destruct (Hplan _ _ _ H2) as [P2 _].
    lia.
  - intros freq cb. split; [|apply wifi_channel_In].
    intro Hin.
    assert (Hfind : forallb (fun e : Z * (Z * Z) =>
                     match wifi_channel (fst e) with
                     | Some cb' => ((fst cb' =? fst (snd e))
                                    && (snd cb' =? snd (snd e)))%Z
                     | None => false
                     end) WIFI_CHANNELS = true)
      by (vm_compute; reflexivity).
    rewrite forallb_forall in Hfind. specialize (Hfind _ Hin).
    simpl in Hfind. destruct (wifi_channel freq) as [[c w]|]; [|discriminate].
    apply andb_true_iff in Hfind. destruct Hfind as [E1 E2].
    apply Z.eqb_eq in E1, E2. simpl in E1, E2.
    destruct cb as [c' w']. simpl in E1, E2. now subst.
  - assert (E : nodup Z.eq_dec (map fst WIFI_CHANNELS)
                = map fst WIFI_CHANNELS) by (vm_compute; reflexivity).
    rewrite <- E. apply NoDup_nodup.
Qed.

End ChannelTable.
